(** * The chat engine of the e-commerce support agent (app/main.py)

    A shallow embedding of [search_knowledge] and [generate_response], of the
    list objects they share with the knowledge document, and of the
    create/update/delete handlers that maintain the document.

    Text is modelled by Rocq strings (sequences of 8-bit characters). The
    character functions follow Python on ASCII text; a byte above 127 (part
    of the UTF-8 encoding of a non-ASCII character) is kept by the
    normaliser and left unchanged by [lower]. *)

From stdpp Require Import gmap strings list fin_maps pretty sorting.
From Stdlib Require Import Ascii.

(** ** Python errors and the result monad *)

Inductive pyerror : Type :=
  | KeyError (key : string)
  | TypeError
  | ValueError
  | HTTP404 (detail : string)
  (** not a Python error: the iteration bound of the heap model was reached *)
  | OutOfFuel.

Inductive result (A : Type) : Type :=
  | Ok (a : A)
  | Err (e : pyerror).
Arguments Ok {A} a.
Arguments Err {A} e.

#[global] Instance result_ret : MRet result := λ A a, Ok a.
#[global] Instance result_bind : MBind result := λ A B k r,
  match r with
  | Ok a => k a
  | Err e => Err e
  end.

Definition is_Ok {A} (r : result A) : bool :=
  match r with Ok _ => true | Err _ => false end.

(** ** Characters and strings *)

(** [str.isspace] on ASCII: tab, newline, vertical tab, form feed, carriage
    return, the four separators 0x1c-0x1f, and the space. *)
Definition is_space (c : ascii) : bool :=
  let n := N_of_ascii c in
  (((9 <=? n) && (n <=? 13)) || ((28 <=? n) && (n <=? 32)))%N.

(** The class [\w] of the regular expression: letters, digits, underscore
    (and the bytes of non-ASCII characters). *)
Definition is_word (c : ascii) : bool :=
  let n := N_of_ascii c in
  (((48 <=? n) && (n <=? 57)) || ((65 <=? n) && (n <=? 90)) || (n =? 95)
   || ((97 <=? n) && (n <=? 122)) || (128 <=? n))%N.

Definition lower_char (c : ascii) : ascii :=
  let n := N_of_ascii c in
  if ((65 <=? n) && (n <=? 90))%N then ascii_of_N (n + 32) else c.

(** [s.lower()] *)
Fixpoint lower (s : string) : string :=
  match s with
  | EmptyString => EmptyString
  | String c s' => String (lower_char c) (lower s')
  end.

(** [re.sub(r'[^\w\s]', '', s)] *)
Fixpoint strip_punctuation (s : string) : string :=
  match s with
  | EmptyString => EmptyString
  | String c s' =>
      if is_word c || is_space c then String c (strip_punctuation s')
      else strip_punctuation s'
  end.

Definition flush (word : string) : list string :=
  match word with
  | EmptyString => []
  | _ => [word]
  end.

(** [s.split()]: the maximal runs of non-whitespace characters, in order.
    [word] is the run being read. *)
Fixpoint split_from (word : string) (s : string) : list string :=
  match s with
  | EmptyString => flush word
  | String c s' =>
      if is_space c then flush word ++ split_from EmptyString s'
      else split_from (word +:+ String c EmptyString) s'
  end.

Definition split (s : string) : list string := split_from EmptyString s.

Fixpoint starts_with (w t : string) : bool :=
  match w, t with
  | EmptyString, _ => true
  | String a w', String b t' => bool_decide (a = b) && starts_with w' t'
  | String _ _, EmptyString => false
  end.

(** [w in t] on strings *)
Fixpoint str_in (w t : string) : bool :=
  starts_with w t ||
  match t with
  | EmptyString => false
  | String _ t' => str_in w t'
  end.

(** [sep.join(l)] *)
Fixpoint join (sep : string) (l : list string) : string :=
  match l with
  | [] => ""
  | [s] => s
  | s :: l' => s +:+ sep +:+ join sep l'
  end.

(** The characters of a string, as Python iterates over it. *)
Fixpoint chars (s : string) : list string :=
  match s with
  | EmptyString => []
  | String c s' => String c EmptyString :: chars s'
  end.

(** ** Word sets *)

Abbreviation wordset := (gset string).

(** [bool(S)] *)
Definition nonempty (S : wordset) : bool := bool_decide (S ≠ ∅).

(** [any(f(w) for w in S)] *)
Definition any_in (S : wordset) (f : string → bool) : bool :=
  existsb f (elements S).

Definition query_words_of (query : string) : wordset :=
  let query_lower := lower query in
  let query_clean := strip_punctuation query_lower in
  list_to_set (split query_clean).

Definition stop_words : wordset :=
  list_to_set ["a"; "an"; "the"; "is"; "are"; "do"; "does"; "what"; "how";
    "can"; "i"; "you"; "your"; "my"; "me"; "we"; "us"; "to"; "for"; "of";
    "in"; "on"; "at"; "with"; "have"; "has"; "any"; "some"; "all"; "this";
    "that"; "these"; "those"].


(** ** Python values and dictionaries *)

(** What the Python runtime provides for the values stored in the JSON
    document: the formatting of a number, and the text of a list. *)
Class PyRuntime (num : Type) := {
  (** [format(x, ".2f")] *)
  num_format_2f : num → string;
  (** [str(x)] *)
  num_str : num → string;
  (** [bool(x)] *)
  num_bool : num → bool;
  (** [str(l)] for a list of strings *)
  list_str : list string → string;
}.

(** The values of the fields of an entry: JSON null, booleans, numbers,
    strings and lists of strings. *)
Inductive value (num : Type) : Type :=
  | VNone
  | VBool (b : bool)
  | VNum (x : num)
  | VStr (s : string)
  | VList (l : list string).
Arguments VNone {num}.
Arguments VBool {num} b.
Arguments VNum {num} x.
Arguments VStr {num} s.
Arguments VList {num} l.

(** An entry is a Python dict with string keys. *)
Abbreviation dict num := (gmap string (value num)).

(** The knowledge document, as [json.load] returns it: every key may be
    missing; the value of a category is a list of dicts and the store info
    is a dict, as the handlers write them. *)
Record Memory (num : Type) : Type := {
  m_products : option (list (dict num));
  m_faqs : option (list (dict num));
  m_policies : option (list (dict num));
  m_custom_knowledge : option (list (dict num));
  m_store_info : option (dict num);
}.
Arguments m_products {num} _.
Arguments m_faqs {num} _.
Arguments m_policies {num} _.
Arguments m_custom_knowledge {num} _.
Arguments m_store_info {num} _.

(** The [results] dict of [search_knowledge]. *)
Record Results (num : Type) : Type := {
  r_products : list (dict num);
  r_faqs : list (dict num);
  r_policies : list (dict num);
  r_custom_knowledge : list (dict num);
  r_store_info : option (dict num);
}.
Arguments r_products {num} _.
Arguments r_faqs {num} _.
Arguments r_policies {num} _.
Arguments r_custom_knowledge {num} _.
Arguments r_store_info {num} _.

Section python.
Context {num : Type} `{!PyRuntime num}.

(** [d[k]] *)
Definition subscript (d : dict num) (k : string) : result (value num) :=
  match d !! k with
  | Some v => Ok v
  | None => Err (KeyError k)
  end.

(** [d.get(k, v)] *)
Definition get (d : dict num) (k : string) (v : value num) : value num :=
  default v (d !! k).

(** [str(v)], the text of [{v}] in an f-string *)
Definition py_str (v : value num) : string :=
  match v with
  | VNone => "None"
  | VBool true => "True"
  | VBool false => "False"
  | VNum x => num_str x
  | VStr s => s
  | VList l => list_str l
  end.

(** [bool(v)] *)
Definition py_bool (v : value num) : bool :=
  match v with
  | VNone => false
  | VBool b => b
  | VNum x => num_bool x
  | VStr s => negb (bool_decide (s = ""))
  | VList l => negb (bool_decide (l = []))
  end.

(** [iter(v)] *)
Definition py_iter (v : value num) : result (list string) :=
  match v with
  | VList l => Ok l
  | VStr s => Ok (chars s)
  | _ => Err TypeError
  end.

(** [sep.join(v)] *)
Definition py_join (sep : string) (v : value num) : result string :=
  l ← py_iter v; mret (join sep l).

(** [f"{v:.2f}"] *)
Definition py_format_2f (v : value num) : result string :=
  match v with
  | VNum x => Ok (num_format_2f x)
  | VBool true => Ok "1.00"
  | VBool false => Ok "0.00"
  | VStr _ => Err ValueError
  | _ => Err TypeError
  end.

(** ** search_knowledge *)

(** The [greeting_words] of [search_knowledge]. *)
Definition greeting_words : wordset :=
  list_to_set ["hi"; "hello"; "hey"; "greetings"; "good"; "morning";
    "afternoon"; "evening"].

Definition store_keywords : wordset :=
  list_to_set ["store"; "shop"; "about"; "contact"; "email"; "phone";
    "who"; "company"].

Definition product_query_keywords : wordset :=
  list_to_set ["product"; "products"; "item"; "items"; "buy"; "sell";
    "selling"; "offer"; "catalog"; "catalogue"; "inventory"; "merchandise"].

Definition price_keywords : wordset :=
  list_to_set ["price"; "cost"; "much"; "expensive"; "cheap"].

Definition faq_keywords : wordset :=
  list_to_set ["shipping"; "ship"; "delivery"; "deliver"; "return";
    "refund"; "exchange"; "warranty"; "guarantee"; "payment"; "pay";
    "order"; "track"; "tracking"].

Definition policy_keywords : wordset :=
  list_to_set ["shipping"; "return"; "refund"; "policy"; "policies";
    "delivery"; "exchange"; "warranty"; "guarantee"; "terms"; "privacy"].

Definition product_text (product : dict num) : result string :=
  name ← subscript product "name";
  description ← subscript product "description";
  let category := get product "category" (VStr "") in
  features ← py_join " " (get product "features" (VList []));
  mret (lower (py_str name +:+ " " +:+ py_str description +:+ " "
               +:+ py_str category +:+ " " +:+ features)).

Definition faq_text (faq : dict num) : result string :=
  question ← subscript faq "question";
  answer ← subscript faq "answer";
  let category := get faq "category" (VStr "") in
  mret (lower (py_str question +:+ " " +:+ py_str answer +:+ " "
               +:+ py_str category)).

Definition policy_text (policy : dict num) : result string :=
  title ← subscript policy "title";
  content ← subscript policy "content";
  let type := get policy "type" (VStr "") in
  mret (lower (py_str title +:+ " " +:+ py_str content +:+ " "
               +:+ py_str type)).

Definition knowledge_text (knowledge : dict num) : result string :=
  title ← subscript knowledge "title";
  content ← subscript knowledge "content";
  keywords ← py_join " " (get knowledge "keywords" (VList []));
  mret (lower (py_str title +:+ " " +:+ py_str content +:+ " "
               +:+ keywords)).

(** The loop [for entry in entries: text = ...; if matches(text):
    found.append(entry)], started with the list [found]. *)
Fixpoint scan (text_of : dict num → result string) (matches : string → bool)
    (entries found : list (dict num)) : result (list (dict num)) :=
  match entries with
  | [] => Ok found
  | entry :: rest =>
      text ← text_of entry;
      scan text_of matches rest
        (if matches text then found ++ [entry] else found)
  end.

(** [any(word in text for word in S)] *)
Definition any_word_in (S : wordset) (text : string) : bool :=
  any_in S (λ word, str_in word text).

(** [meaningful_words and any(word in text for word in meaningful_words)] *)
Definition meaningful_match (meaningful_words : wordset) (text : string)
    : bool :=
  nonempty meaningful_words && any_word_in meaningful_words text.

(** The condition of the product loop of a query without product keyword:
    [if meaningful_words and any(...): ... elif query_words & {...}]. *)
Definition product_match (meaningful_words query_words : wordset)
    (text : string) : bool :=
  meaningful_match meaningful_words text
  || nonempty (query_words ∩ price_keywords).

(** The condition [if meaningful_words and any(...): ... elif
    query_words & keywords and any(...)] of the FAQ and policy loops. *)
Definition keyword_match (meaningful_words query_words keywords : wordset)
    (text : string) : bool :=
  meaningful_match meaningful_words text
  || (nonempty (query_words ∩ keywords)
      && any_word_in (query_words ∩ keywords) text).

Definition search_knowledge (query : string) (memory : Memory num)
    : result (Results num) :=
  let query_words := query_words_of query in
  let meaningful_words := query_words ∖ stop_words in
  let is_greeting := nonempty (query_words ∩ greeting_words) in
  let store_info :=
    if nonempty (query_words ∩ store_keywords) || is_greeting
    then m_store_info memory else None in
  let is_product_query := nonempty (query_words ∩ product_query_keywords) in
  products ←
    (if is_product_query then
       let specific_terms := meaningful_words ∖ product_query_keywords in
       if negb (nonempty specific_terms) then
         Ok (default [] (m_products memory))
       else
         scan product_text (any_word_in specific_terms)
           (default [] (m_products memory)) []
     else
       scan product_text (product_match meaningful_words query_words)
         (default [] (m_products memory)) []);
  faqs ←
    scan faq_text (keyword_match meaningful_words query_words faq_keywords)
      (default [] (m_faqs memory)) [];
  policies ←
    scan policy_text
      (keyword_match meaningful_words query_words policy_keywords)
      (default [] (m_policies memory)) [];
  custom_knowledge ←
    scan knowledge_text (meaningful_match meaningful_words)
      (default [] (m_custom_knowledge memory)) [];
  mret {| r_products := products; r_faqs := faqs; r_policies := policies;
          r_custom_knowledge := custom_knowledge;
          r_store_info := store_info |}.

(** ** generate_response *)

Definition newline : string := String "010"%char "".

(** The separator ["\n---\n"] *)
Definition separator : string := newline +:+ "---" +:+ newline.

(** The [greeting_words] of [generate_response], a set of its own. *)
Definition response_greeting_words : wordset :=
  list_to_set ["hi"; "hello"; "hey"; "greetings"].

Definition non_greeting_keywords : wordset :=
  list_to_set ["shipping"; "return"; "product"; "price"; "policy";
    "order"; "buy"; "help"; "support"].

Definition is_pure_greeting (query_words : wordset) : bool :=
  nonempty (query_words ∩ response_greeting_words)
  && negb (nonempty (query_words ∩ non_greeting_keywords)).

(** [response_parts] holds what was appended: formatted strings, and the
    field values that the code appends as they are. *)
Abbreviation parts := (list (value num)).

(** ["\n".join(response_parts)]: every part has to be a string. *)
Fixpoint join_parts (response_parts : parts) : result (list string) :=
  match response_parts with
  | [] => Ok []
  | VStr s :: rest => l ← join_parts rest; mret (s :: l)
  | _ :: _ => Err TypeError
  end.

Definition join_response (response_parts : parts) : result string :=
  l ← join_parts response_parts; mret (join newline l).

Definition welcome_line (store_name : string) : string :=
  "Hello! Welcome to " +:+ store_name
  +:+ "! üëã How can I help you today? I can assist you with:".

Definition greeting_bullets : list string :=
  ["‚Ä¢ Product information and recommendations";
   "‚Ä¢ Pricing and availability";
   "‚Ä¢ Shipping and return policies";
   "‚Ä¢ General questions about our store"].

Definition greeting_parts (memory : Memory num) : parts :=
  let store_name :=
    get (default ∅ (m_store_info memory)) "name" (VStr "our store") in
  VStr (welcome_line (py_str store_name)) :: (VStr <$> greeting_bullets).

(** The loop [for feature in features: response_parts.append(...)] *)
Definition feature_lines (features : list string) : parts :=
  (λ feature, VStr ("  ‚Ä¢ " +:+ feature)) <$> features.

(** The detailed card of a single product. *)
Definition product_card (p : dict num) (response_parts : parts)
    : result parts :=
  name ← subscript p "name";
  let response_parts := response_parts ++ [VStr ("**" +:+ py_str name +:+ "**")] in
  description ← subscript p "description";
  let response_parts :=
    response_parts ++ [VStr ("üìù " +:+ py_str description)] in
  price ← subscript p "price";
  price_2f ← py_format_2f price;
  let response_parts :=
    response_parts ++ [VStr ("üí∞ Price: R" +:+ price_2f)] in
  response_parts ←
    (if py_bool (get p "category" VNone) then
       category ← subscript p "category";
       mret (response_parts ++ [VStr ("üìÅ Category: " +:+ py_str category)])
     else mret response_parts);
  response_parts ←
    (if py_bool (get p "features" VNone) then
       let response_parts := response_parts ++ [VStr "‚ú® Features:"] in
       features ← subscript p "features";
       features ← py_iter features;
       mret (response_parts ++ feature_lines features)
     else mret response_parts);
  let stock_status :=
    if py_bool (get p "in_stock" (VBool true)) then "‚úÖ In Stock"
    else "‚ùå Out of Stock" in
  mret (response_parts ++ [VStr stock_status]).

(** One bullet of the list of several products. *)
Definition product_bullet (p : dict num) : result parts :=
  let stock_emoji :=
    if py_bool (get p "in_stock" (VBool true)) then "‚úÖ" else "‚ùå" in
  name ← subscript p "name";
  price ← subscript p "price";
  price_2f ← py_format_2f price;
  mret [VStr ("‚Ä¢ **" +:+ py_str name +:+ "** - R" +:+ price_2f +:+ " "
              +:+ stock_emoji)].

(** The loop [for entry in entries: response_parts.append(...)], where
    [render] gives the parts appended for one entry. *)
Fixpoint append_each (render : dict num → result parts)
    (entries : list (dict num)) (response_parts : parts) : result parts :=
  match entries with
  | [] => Ok response_parts
  | entry :: rest =>
      lines ← render entry;
      append_each render rest (response_parts ++ lines)
  end.

Definition products_header : string :=
  "Here are some products that might interest you:".

Definition products_section (products : list (dict num))
    (response_parts : parts) : result parts :=
  match products with
  | [] => Ok response_parts
  | [p] => product_card p response_parts
  | _ =>
      let response_parts := response_parts ++ [VStr products_header] in
      append_each product_bullet (take 5 products) response_parts
  end.

Definition faq_lines (faq : dict num) : result parts :=
  question ← subscript faq "question";
  answer ← subscript faq "answer";
  mret [VStr ("**Q: " +:+ py_str question +:+ "**");
        VStr ("A: " +:+ py_str answer)].

(** Policies and custom knowledge: the title formatted, the content
    appended as it is. *)
Definition titled_lines (entry : dict num) : result parts :=
  title ← subscript entry "title";
  content ← subscript entry "content";
  mret [VStr ("**" +:+ py_str title +:+ "**"); content].

(** [if response_parts: response_parts.append("\n---\n")] *)
Definition with_separator (response_parts : parts) : parts :=
  match response_parts with
  | [] => response_parts
  | _ => response_parts ++ [VStr separator]
  end.

(** A section of at most [limit] entries, after a separator. *)
Definition listed_section (render : dict num → result parts) (limit : nat)
    (entries : list (dict num)) (response_parts : parts) : result parts :=
  match entries with
  | [] => Ok response_parts
  | _ => append_each render (take limit entries)
           (with_separator response_parts)
  end.

Definition faqs_section := listed_section faq_lines 3.
Definition policies_section := listed_section titled_lines 2.
Definition custom_knowledge_section := listed_section titled_lines 2.

(** [bool(d)] for a dict *)
Definition dict_bool (d : dict num) : bool := negb (bool_decide (dom d = ∅)).

Definition store_info_lines (info : dict num) : result parts :=
  let response_parts :=
    [VStr ("**" +:+ py_str (get info "name" (VStr "Our Store")) +:+ "**")] in
  response_parts ←
    (if py_bool (get info "description" VNone) then
       description ← subscript info "description";
       mret (response_parts ++ [description])
     else mret response_parts);
  response_parts ←
    (if py_bool (get info "contact_email" VNone) then
       contact_email ← subscript info "contact_email";
       mret (response_parts ++ [VStr ("üìß Email: " +:+ py_str contact_email)])
     else mret response_parts);
  if py_bool (get info "contact_phone" VNone) then
    contact_phone ← subscript info "contact_phone";
    mret (response_parts ++ [VStr ("üìû Phone: " +:+ py_str contact_phone)])
  else mret response_parts.

Definition store_info_section (store_info : option (dict num))
    (response_parts : parts) : result parts :=
  match store_info, response_parts with
  | Some info, [] =>
      if dict_bool info then store_info_lines info else Ok response_parts
  | _, _ => Ok response_parts
  end.

Definition fallback_bullets : list string :=
  ["‚Ä¢ Product information and pricing";
   "‚Ä¢ Shipping and delivery questions";
   "‚Ä¢ Return and refund policies";
   "‚Ä¢ General store inquiries"].

Definition fallback_lines (contact_email : string) : list string :=
  ["I'm sorry, I couldn't find specific information about that in my knowledge base.";
   "Here's what I can help you with:"]
  ++ fallback_bullets
  ++ [newline +:+ "For more specific questions, please contact us at "
      +:+ contact_email].

Definition fallback_parts (memory : Memory num) : parts :=
  let store_name :=
    get (default ∅ (m_store_info memory)) "name" (VStr "our store") in
  let contact_email :=
    get (default ∅ (m_store_info memory)) "contact_email"
      (VStr "support@store.com") in
  VStr <$> fallback_lines (py_str contact_email).

(** The parts appended by the five sections, in order. *)
Definition sections (search_results : Results num) : result parts :=
  response_parts ← products_section (r_products search_results) [];
  response_parts ← faqs_section (r_faqs search_results) response_parts;
  response_parts ←
    policies_section (r_policies search_results) response_parts;
  response_parts ←
    custom_knowledge_section (r_custom_knowledge search_results)
      response_parts;
  store_info_section (r_store_info search_results) response_parts.

Definition response_parts_of (query : string)
    (search_results : Results num) (memory : Memory num) : result parts :=
  let query_words := query_words_of query in
  if is_pure_greeting query_words then Ok (greeting_parts memory)
  else
    response_parts ← sections search_results;
    match response_parts with
    | [] => Ok (fallback_parts memory)
    | _ => Ok response_parts
    end.

Definition generate_response (query : string)
    (search_results : Results num) (memory : Memory num) : result string :=
  response_parts ← response_parts_of query search_results memory;
  join_response response_parts.

(** The chat handler: search, then compose. *)
Definition chat (message : string) (memory : Memory num) : result string :=
  search_results ← search_knowledge message memory;
  generate_response message search_results memory.

End python.

(** ** The list objects shared between the document and the results

    Python lists are mutable objects: [results["products"] =
    memory.get("products", [])] makes the result refer to the document's own
    list, and [append] changes a list in place. The heap holds the list
    objects; a reference is an index into it. *)

Abbreviation loc := nat.
Abbreviation heap num := (list (list (dict num))).

(** The document and the results, with references for their lists. *)
Record MemoryRefs (num : Type) : Type := {
  ref_products : option loc;
  ref_faqs : option loc;
  ref_policies : option loc;
  ref_custom_knowledge : option loc;
  ref_store_info : option (dict num);
}.
Arguments ref_products {num} _.
Arguments ref_faqs {num} _.
Arguments ref_policies {num} _.
Arguments ref_custom_knowledge {num} _.
Arguments ref_store_info {num} _.

Record ResultsRefs (num : Type) : Type := {
  res_products : loc;
  res_faqs : loc;
  res_policies : loc;
  res_custom_knowledge : loc;
  res_store_info : option (dict num);
}.
Arguments res_products {num} _.
Arguments res_faqs {num} _.
Arguments res_policies {num} _.
Arguments res_custom_knowledge {num} _.
Arguments res_store_info {num} _.

(** A computation on the heap: a result or an error, and the heap after. *)
Definition heapM (num A : Type) : Type := heap num → result A * heap num.

#[global] Instance heapM_ret {num} : MRet (heapM num) := λ A a h, (Ok a, h).
#[global] Instance heapM_bind {num} : MBind (heapM num) := λ A B k m h,
  match m h with
  | (Ok a, h') => k a h'
  | (Err e, h') => (Err e, h')
  end.

Section heap.
Context {num : Type} `{!PyRuntime num}.

Definition lift {A} (r : result A) : heapM num A := λ h, (r, h).

(** [[]]: a new, empty list object *)
Definition alloc_list : heapM num loc := λ h, (Ok (length h), h ++ [[]]).

(** [r.append(x)] *)
Definition list_append (r : loc) (x : dict num) : heapM num unit :=
  λ h, (Ok (), alter (λ l, l ++ [x]) r h).

(** The list a reference denotes. *)
Definition list_at (r : loc) (h : heap num) : list (dict num) :=
  default [] (h !! r).

(** The next item of the iteration over the list [r], at index [i]. *)
Definition list_item (r : loc) (i : nat) : heapM num (option (dict num)) :=
  λ h, (Ok (list_at r h !! i), h).

(** [memory.get(key, [])]: the default list is built before the call. *)
Definition get_list (field : option loc) : heapM num loc :=
  empty ← alloc_list; mret (default empty field).

(** [for entry in src: text = ...; if matches(text): found.append(entry)].
    The iteration reads the list object [src] item by item, from index
    [i], as Python does; [fuel] bounds the number of iterations. *)
Fixpoint scan_heap (fuel : nat) (text_of : dict num → result string)
    (matches : string → bool) (src : loc) (i : nat) (found : loc)
    : heapM num unit :=
  match fuel with
  | O => lift (Err OutOfFuel)
  | S fuel =>
      item ← list_item src i;
      match item with
      | None => mret ()
      | Some entry =>
          text ← lift (text_of entry);
          _ ← (if matches text then list_append found entry else mret ());
          scan_heap fuel text_of matches src (S i) found
      end
  end.

(** [for entry in memory.get(key, []): ...] *)
Definition scan_list (fuel : nat) (text_of : dict num → result string)
    (matches : string → bool) (field : option loc) (found : loc)
    : heapM num unit :=
  src ← get_list field;
  scan_heap fuel text_of matches src 0 found.

Definition search_knowledge_heap (fuel : nat) (query : string)
    (memory : MemoryRefs num) : heapM num (ResultsRefs num) :=
  let query_words := query_words_of query in
  products ← alloc_list;
  faqs ← alloc_list;
  policies ← alloc_list;
  custom_knowledge ← alloc_list;
  let meaningful_words := query_words ∖ stop_words in
  let is_greeting := nonempty (query_words ∩ greeting_words) in
  let store_info :=
    if nonempty (query_words ∩ store_keywords) || is_greeting
    then ref_store_info memory else None in
  let is_product_query := nonempty (query_words ∩ product_query_keywords) in
  products ←
    (if is_product_query then
       let specific_terms := meaningful_words ∖ product_query_keywords in
       if negb (nonempty specific_terms) then
         get_list (ref_products memory)
       else
         _ ← scan_list fuel product_text (any_word_in specific_terms)
               (ref_products memory) products;
         mret products
     else
       _ ← scan_list fuel product_text
             (product_match meaningful_words query_words)
             (ref_products memory) products;
       mret products);
  _ ← scan_list fuel faq_text
        (keyword_match meaningful_words query_words faq_keywords)
        (ref_faqs memory) faqs;
  _ ← scan_list fuel policy_text
        (keyword_match meaningful_words query_words policy_keywords)
        (ref_policies memory) policies;
  _ ← scan_list fuel knowledge_text (meaningful_match meaningful_words)
        (ref_custom_knowledge memory) custom_knowledge;
  mret {| res_products := products; res_faqs := faqs;
          res_policies := policies;
          res_custom_knowledge := custom_knowledge;
          res_store_info := store_info |}.

(** The values that the references denote in a heap. *)
Definition load_refs (memory : MemoryRefs num) (h : heap num) : Memory num :=
  {| m_products := (λ r, list_at r h) <$> ref_products memory;
     m_faqs := (λ r, list_at r h) <$> ref_faqs memory;
     m_policies := (λ r, list_at r h) <$> ref_policies memory;
     m_custom_knowledge :=
       (λ r, list_at r h) <$> ref_custom_knowledge memory;
     m_store_info := ref_store_info memory |}.

Definition load_results (results : ResultsRefs num) (h : heap num)
    : Results num :=
  {| r_products := list_at (res_products results) h;
     r_faqs := list_at (res_faqs results) h;
     r_policies := list_at (res_policies results) h;
     r_custom_knowledge := list_at (res_custom_knowledge results) h;
     r_store_info := res_store_info results |}.

(** [generate_response] only reads its arguments. *)
Definition generate_response_heap (query : string)
    (search_results : ResultsRefs num) (memory : MemoryRefs num)
    : heapM num string :=
  λ h, (generate_response query (load_results search_results h)
          (load_refs memory h), h).

Definition chat_heap (fuel : nat) (message : string)
    (memory : MemoryRefs num) : heapM num string :=
  search_results ← search_knowledge_heap fuel message memory;
  generate_response_heap message search_results memory.

(** Every list of the document is an object of the heap. *)
Definition ref_in (h : heap num) (r : option loc) : Prop :=
  from_option (λ l, l < length h) True r.

Definition refs_in (memory : MemoryRefs num) (h : heap num) : Prop :=
  ref_in h (ref_products memory) ∧ ref_in h (ref_faqs memory)
  ∧ ref_in h (ref_policies memory)
  ∧ ref_in h (ref_custom_knowledge memory).

(** The longest list of the document: a bound for the iterations. *)
Definition longest (memory : MemoryRefs num) (h : heap num) : nat :=
  let len r := from_option (λ l, length (list_at l h)) 0 r in
  Nat.max (Nat.max (len (ref_products memory)) (len (ref_faqs memory)))
    (Nat.max (len (ref_policies memory)) (len (ref_custom_knowledge memory))).

End heap.

(** ** The handlers that maintain the document *)

(** The payloads of the requests, as the Pydantic models declare them. *)
Record Product (num : Type) : Type := {
  product_id : option string;
  product_name : string;
  product_description : string;
  product_price : num;
  product_category : option string;
  product_features : option (list string);
  product_in_stock : option bool;
}.
Arguments product_id {num} _.
Arguments product_name {num} _.
Arguments product_description {num} _.
Arguments product_price {num} _.
Arguments product_category {num} _.
Arguments product_features {num} _.
Arguments product_in_stock {num} _.

Record FAQ : Type := {
  faq_id : option string;
  faq_question : string;
  faq_answer : string;
  faq_category : option string;
}.

Record Policy : Type := {
  policy_id : option string;
  policy_title : string;
  policy_content : string;
  policy_type : option string;
}.

Record CustomKnowledge : Type := {
  knowledge_id : option string;
  knowledge_title : string;
  knowledge_content : string;
  knowledge_keywords : option (list string);
}.

(** The payload of the store-info update: [None] is a field that is unset
    or null. *)
Record StoreInfo : Type := {
  info_name : option string;
  info_description : option string;
  info_contact_email : option string;
  info_contact_phone : option string;
}.

(** The reading of the clock, [datetime.now()]. *)
Record datetime : Type := {
  year : nat;
  month : nat;
  day : nat;
  hour : nat;
  minute : nat;
  second : nat;
  microsecond : nat;
}.

Fixpoint zeros (n : nat) : string :=
  match n with
  | O => ""
  | S n => String "0"%char (zeros n)
  end.

(** A number in decimal, padded with zeros on the left to [width] digits. *)
Definition zero_padded (width n : nat) : string :=
  let digits := pretty n in
  zeros (width - String.length digits) +:+ digits.

(** [now.strftime("%Y%m%d%H%M%S%f")] *)
Definition generate_id (now : datetime) : string :=
  zero_padded 4 (year now) +:+ zero_padded 2 (month now)
  +:+ zero_padded 2 (day now) +:+ zero_padded 2 (hour now)
  +:+ zero_padded 2 (minute now) +:+ zero_padded 2 (second now)
  +:+ zero_padded 6 (microsecond now).

Inductive category : Type :=
  | Products
  | Faqs
  | Policies
  | Knowledge.

#[global] Instance category_eq_dec : EqDecision category.
Proof. solve_decision. Defined.

Definition category_key (c : category) : string :=
  match c with
  | Products => "products"
  | Faqs => "faqs"
  | Policies => "policies"
  | Knowledge => "custom_knowledge"
  end.

Section handlers.
Context {num : Type}.

(** An [Optional] field of a payload: [None] is JSON null. *)
Definition optional {A} (f : A → value num) (o : option A) : value num :=
  from_option f VNone o.

(** [product.model_dump()] and its siblings *)
Definition product_model_dump (product : Product num) : dict num :=
  {[ "id" := optional VStr (product_id product);
     "name" := VStr (product_name product);
     "description" := VStr (product_description product);
     "price" := VNum (product_price product);
     "category" := optional VStr (product_category product);
     "features" := optional VList (product_features product);
     "in_stock" := optional VBool (product_in_stock product) ]}.

Definition faq_model_dump (faq : FAQ) : dict num :=
  {[ "id" := optional VStr (faq_id faq);
     "question" := VStr (faq_question faq);
     "answer" := VStr (faq_answer faq);
     "category" := optional VStr (faq_category faq) ]}.

Definition policy_model_dump (policy : Policy) : dict num :=
  {[ "id" := optional VStr (policy_id policy);
     "title" := VStr (policy_title policy);
     "content" := VStr (policy_content policy);
     "type" := optional VStr (policy_type policy) ]}.

Definition knowledge_model_dump (knowledge : CustomKnowledge) : dict num :=
  {[ "id" := optional VStr (knowledge_id knowledge);
     "title" := VStr (knowledge_title knowledge);
     "content" := VStr (knowledge_content knowledge);
     "keywords" := optional VList (knowledge_keywords knowledge) ]}.

(** The file [memory.json]: [None] when it does not exist yet. *)
Abbreviation file := (option (Memory num)).

Definition default_memory : Memory num :=
  {| m_products := Some []; m_faqs := Some []; m_policies := Some [];
     m_custom_knowledge := Some [];
     m_store_info := Some
       {[ "name" := VStr "My E-commerce Store";
          "description" := VStr "Welcome to our online store!";
          "contact_email" := VStr "support@store.com";
          "contact_phone" := VStr "" ]} |}.

Definition load_memory (f : file) : Memory num := default default_memory f.

Definition save_memory (memory : Memory num) : file := Some memory.

Definition category_list (c : category) (memory : Memory num)
    : option (list (dict num)) :=
  match c with
  | Products => m_products memory
  | Faqs => m_faqs memory
  | Policies => m_policies memory
  | Knowledge => m_custom_knowledge memory
  end.

(** [memory[key]] for the key of a category *)
Definition memory_subscript (c : category) (memory : Memory num)
    : result (list (dict num)) :=
  match category_list c memory with
  | Some entries => Ok entries
  | None => Err (KeyError (category_key c))
  end.

(** The document with the list of a category replaced. *)
Definition with_list (c : category) (entries : list (dict num))
    (memory : Memory num) : Memory num :=
  match c with
  | Products =>
      {| m_products := Some entries; m_faqs := m_faqs memory;
         m_policies := m_policies memory;
         m_custom_knowledge := m_custom_knowledge memory;
         m_store_info := m_store_info memory |}
  | Faqs =>
      {| m_products := m_products memory; m_faqs := Some entries;
         m_policies := m_policies memory;
         m_custom_knowledge := m_custom_knowledge memory;
         m_store_info := m_store_info memory |}
  | Policies =>
      {| m_products := m_products memory; m_faqs := m_faqs memory;
         m_policies := Some entries;
         m_custom_knowledge := m_custom_knowledge memory;
         m_store_info := m_store_info memory |}
  | Knowledge =>
      {| m_products := m_products memory; m_faqs := m_faqs memory;
         m_policies := m_policies memory;
         m_custom_knowledge := Some entries;
         m_store_info := m_store_info memory |}
  end.

(** [v == entry_id], for a string [entry_id] *)
Definition is_id (v : value num) (entry_id : string) : bool :=
  match v with
  | VStr s => bool_decide (s = entry_id)
  | _ => false
  end.

(** The handlers of POST: the new entry gets the clock's id and is appended. *)
Definition add_entry (c : category) (now : datetime) (dump : dict num)
    (f : file) : result (dict num * file) :=
  let memory := load_memory f in
  let entry_dict := <["id" := VStr (generate_id now)]> dump in
  entries ← memory_subscript c memory;
  mret (entry_dict, save_memory (with_list c (entries ++ [entry_dict]) memory)).

(** The index of the first entry whose id is [entry_id], as the loop
    [for i, p in enumerate(entries): if p["id"] == entry_id] finds it. *)
Fixpoint find_id (entry_id : string) (entries : list (dict num)) (i : nat)
    : result (option nat) :=
  match entries with
  | [] => Ok None
  | p :: rest =>
      v ← subscript p "id";
      if is_id v entry_id then Ok (Some i) else find_id entry_id rest (S i)
  end.

(** The handlers of PUT. *)
Definition update_entry (c : category) (detail : string) (entry_id : string)
    (dump : dict num) (f : file) : result (dict num * file) :=
  let memory := load_memory f in
  entries ← memory_subscript c memory;
  found ← find_id entry_id entries 0;
  match found with
  | Some i =>
      let entry_dict := <["id" := VStr entry_id]> dump in
      mret (entry_dict,
            save_memory (with_list c (<[i := entry_dict]> entries) memory))
  | None => Err (HTTP404 detail)
  end.

(** [[p for p in entries if p["id"] != entry_id]] *)
Fixpoint without_id (entry_id : string) (entries : list (dict num))
    : result (list (dict num)) :=
  match entries with
  | [] => Ok []
  | p :: rest =>
      v ← subscript p "id";
      kept ← without_id entry_id rest;
      mret (if is_id v entry_id then kept else p :: kept)
  end.

(** The handlers of DELETE. *)
Definition delete_entry (c : category) (entry_id : string) (f : file)
    : result file :=
  let memory := load_memory f in
  entries ← memory_subscript c memory;
  kept ← without_id entry_id entries;
  mret (save_memory (with_list c kept memory)).

Definition add_product (now : datetime) (product : Product num) :=
  add_entry Products now (product_model_dump product).
Definition update_product (product_id : string) (product : Product num) :=
  update_entry Products "Product not found" product_id
    (product_model_dump product).
Definition delete_product (product_id : string) :=
  delete_entry Products product_id.

Definition add_faq (now : datetime) (faq : FAQ) :=
  add_entry Faqs now (faq_model_dump faq).
Definition update_faq (faq_id : string) (faq : FAQ) :=
  update_entry Faqs "FAQ not found" faq_id (faq_model_dump faq).
Definition delete_faq (faq_id : string) := delete_entry Faqs faq_id.

Definition add_policy (now : datetime) (policy : Policy) :=
  add_entry Policies now (policy_model_dump policy).
Definition update_policy (policy_id : string) (policy : Policy) :=
  update_entry Policies "Policy not found" policy_id
    (policy_model_dump policy).
Definition delete_policy (policy_id : string) :=
  delete_entry Policies policy_id.

Definition add_knowledge (now : datetime) (knowledge : CustomKnowledge) :=
  add_entry Knowledge now (knowledge_model_dump knowledge).
Definition update_knowledge (knowledge_id : string)
    (knowledge : CustomKnowledge) :=
  update_entry Knowledge "Knowledge entry not found" knowledge_id
    (knowledge_model_dump knowledge).
Definition delete_knowledge (knowledge_id : string) :=
  delete_entry Knowledge knowledge_id.

(** [if value is not None: current_info[key] = value] *)
Definition set_field (key : string) (field : option string)
    (current_info : dict num) : dict num :=
  match field with
  | Some value => <[key := VStr value]> current_info
  | None => current_info
  end.

(** The store info is merged field by field. *)
Definition update_store_info (store_info : StoreInfo) (f : file)
    : dict num * file :=
  let memory := load_memory f in
  let current_info := default ∅ (m_store_info memory) in
  let current_info :=
    set_field "contact_phone" (info_contact_phone store_info)
      (set_field "contact_email" (info_contact_email store_info)
         (set_field "description" (info_description store_info)
            (set_field "name" (info_name store_info) current_info))) in
  (current_info,
   save_memory
     {| m_products := m_products memory; m_faqs := m_faqs memory;
        m_policies := m_policies memory;
        m_custom_knowledge := m_custom_knowledge memory;
        m_store_info := Some current_info |}).

(** [import_memory] saves the posted document as it is. *)
Definition import_memory (data : Memory num) (f : file) : file :=
  save_memory data.

End handlers.

(** The requests that change the document, and the states of the file that
    sequences of them reach from a missing file. *)
Inductive request (num : Type) : Type :=
  | PostProduct (product : Product num)
  | PutProduct (product_id : string) (product : Product num)
  | DeleteProduct (product_id : string)
  | PostFaq (faq : FAQ)
  | PutFaq (faq_id : string) (faq : FAQ)
  | DeleteFaq (faq_id : string)
  | PostPolicy (policy : Policy)
  | PutPolicy (policy_id : string) (policy : Policy)
  | DeletePolicy (policy_id : string)
  | PostKnowledge (knowledge : CustomKnowledge)
  | PutKnowledge (knowledge_id : string) (knowledge : CustomKnowledge)
  | DeleteKnowledge (knowledge_id : string)
  | PutStoreInfo (store_info : StoreInfo)
  | ImportMemory (data : Memory num).
Arguments PostProduct {num} product.
Arguments PutProduct {num} product_id product.
Arguments DeleteProduct {num} product_id.
Arguments PostFaq {num} faq.
Arguments PutFaq {num} faq_id faq.
Arguments DeleteFaq {num} faq_id.
Arguments PostPolicy {num} policy.
Arguments PutPolicy {num} policy_id policy.
Arguments DeletePolicy {num} policy_id.
Arguments PostKnowledge {num} knowledge.
Arguments PutKnowledge {num} knowledge_id knowledge.
Arguments DeleteKnowledge {num} knowledge_id.
Arguments PutStoreInfo {num} store_info.
Arguments ImportMemory {num} data.

Section requests.
Context {num : Type}.

(** The file that a handler saved. *)
Definition saved {A} (r : result (A * option (Memory num)))
    : result (option (Memory num)) :=
  p ← r; mret (snd p).

Definition handle (now : datetime) (req : request num)
    (f : option (Memory num)) : result (option (Memory num)) :=
  match req with
  | PostProduct product => saved (add_product now product f)
  | PutProduct product_id product => saved (update_product product_id product f)
  | DeleteProduct product_id => delete_product product_id f
  | PostFaq faq => saved (add_faq now faq f)
  | PutFaq faq_id faq => saved (update_faq faq_id faq f)
  | DeleteFaq faq_id => delete_faq faq_id f
  | PostPolicy policy => saved (add_policy now policy f)
  | PutPolicy policy_id policy => saved (update_policy policy_id policy f)
  | DeletePolicy policy_id => delete_policy policy_id f
  | PostKnowledge knowledge => saved (add_knowledge now knowledge f)
  | PutKnowledge knowledge_id knowledge =>
      saved (update_knowledge knowledge_id knowledge f)
  | DeleteKnowledge knowledge_id => delete_knowledge knowledge_id f
  | PutStoreInfo store_info => Ok (update_store_info store_info f).2
  | ImportMemory data => Ok (import_memory data f)
  end.

Inductive reachable : option (Memory num) → Prop :=
  | reachable_start : reachable None
  | reachable_step now req f f' :
      reachable f → handle now req f = Ok f' → reachable f'.

(** The ids of the entries of a list, in order ([None]: no ["id"] key). *)
Definition entry_ids (entries : list (dict num)) : list (option (value num)) :=
  (λ p, p !! "id") <$> entries.

(** The ids that are present. *)
Definition present_ids (entries : list (dict num)) : list (value num) :=
  omap (λ p, p !! "id") entries.

(** Within every category, no two entries have the same id. *)
Definition unique_ids (memory : Memory num) : Prop :=
  ∀ c, NoDup (present_ids (default [] (category_list c memory))).

(** ** Documents that conform to the data model

    The keys that the code subscripts are present; a price is a number; a
    content or description that is appended as it is, is a string; features
    and keywords, when present, are lists. *)

Definition has_key (d : dict num) (k : string) : bool :=
  bool_decide (is_Some (d !! k)).

Definition is_number (d : dict num) (k : string) : bool :=
  match d !! k with
  | Some (VNum _) => true
  | _ => false
  end.

Definition is_string (d : dict num) (k : string) : bool :=
  match d !! k with
  | Some (VStr _) => true
  | _ => false
  end.

Definition string_or_missing (d : dict num) (k : string) : bool :=
  match d !! k with
  | None | Some (VStr _) => true
  | _ => false
  end.

Definition list_or_missing (d : dict num) (k : string) : bool :=
  match d !! k with
  | None | Some (VList _) => true
  | _ => false
  end.

Definition wf_product (p : dict num) : bool :=
  has_key p "name" && has_key p "description" && is_number p "price"
  && list_or_missing p "features".

Definition wf_faq (faq : dict num) : bool :=
  has_key faq "question" && has_key faq "answer".

Definition wf_policy (policy : dict num) : bool :=
  has_key policy "title" && is_string policy "content".

Definition wf_knowledge (knowledge : dict num) : bool :=
  has_key knowledge "title" && is_string knowledge "content"
  && list_or_missing knowledge "keywords".

Definition wf_store_info (info : dict num) : bool :=
  string_or_missing info "description".

Definition wf_memory (memory : Memory num) : bool :=
  forallb wf_product (default [] (m_products memory))
  && forallb wf_faq (default [] (m_faqs memory))
  && forallb wf_policy (default [] (m_policies memory))
  && forallb wf_knowledge (default [] (m_custom_knowledge memory))
  && from_option wf_store_info true (m_store_info memory).

Definition wf_results (results : Results num) : bool :=
  forallb wf_product (r_products results)
  && forallb wf_faq (r_faqs results)
  && forallb wf_policy (r_policies results)
  && forallb wf_knowledge (r_custom_knowledge results)
  && from_option wf_store_info true (r_store_info results).

End requests.

(** ** A runtime for prices counted in hundredths

    The theorems hold for every runtime; the examples are evaluated with
    this one, where the number [1999] stands for 19.99. *)

Definition hundredths_2f (c : N) : string :=
  pretty (c / 100)%N +:+ "." +:+ zero_padded 2 (N.to_nat (c mod 100)%N).

Definition hundredths_str (c : N) : string :=
  pretty (c / 100)%N +:+ "." +:+
  (if (c mod 10 =? 0)%N then pretty ((c mod 100) / 10)%N
   else zero_padded 2 (N.to_nat (c mod 100)%N)).

Definition quoted_list (l : list string) : string :=
  "[" +:+ join ", " ((λ s, "'" +:+ s +:+ "'") <$> l) +:+ "]".

#[global] Instance hundredths : PyRuntime N := {|
  num_format_2f := hundredths_2f;
  num_str := hundredths_str;
  num_bool := λ c, negb (c =? 0)%N;
  list_str := quoted_list;
|}.

(** ** Notions used in the statements *)


(** [r] is made of the items of [l] at increasing positions: a subsequence
    that keeps the order and takes no position twice. *)
Definition subsequence_of {A} (r l : list A) : Prop :=
  ∃ positions : list nat,
    StronglySorted lt positions ∧ Forall2 (λ i x, l !! i = Some x) positions r.

(** Whether the loop [scan] appends an entry. *)
Definition selects {num} (text_of : dict num → result string)
    (matches : string → bool) (entry : dict num) : bool :=
  match text_of entry with
  | Ok text => matches text
  | Err _ => false
  end.



(** ** Sample documents *)

Definition sample_product (name : string) (price : N) : dict N :=
  {[ "id" := VStr ("id-" +:+ name); "name" := VStr name;
     "description" := VStr ("A fine " +:+ name); "price" := VNum price;
     "category" := VStr "coffee"; "features" := VList ["fresh"];
     "in_stock" := VBool true ]}.

Definition sample_faq (n : nat) : dict N :=
  {[ "id" := VStr ("faq-" +:+ pretty n);
     "question" := VStr ("How long does shipping take, case " +:+ pretty n);
     "answer" := VStr "Three days"; "category" := VStr "shipping" ]}.

Definition sample_policy : dict N :=
  {[ "id" := VStr "pol-1"; "title" := VStr "Return policy";
     "content" := VStr "Returns within 30 days"; "type" := VStr "returns" ]}.

Definition acme_info : dict N :=
  {[ "name" := VStr "Acme"; "contact_phone" := VStr "" ]}.

(** A document with three products, ten FAQs and a policy. *)
Definition sample_memory : Memory N :=
  {| m_products := Some [sample_product "espresso" 1999;
                         sample_product "filter" 1450;
                         sample_product "grinder" 8900];
     m_faqs := Some (sample_faq <$> seq 0 10);
     m_policies := Some [sample_policy];
     m_custom_knowledge := None;
     m_store_info := Some acme_info |}.

(** A document without any key, and one whose only product has no name. *)
Definition empty_memory : Memory N :=
  {| m_products := None; m_faqs := None; m_policies := None;
     m_custom_knowledge := None; m_store_info := None |}.

Definition nameless_memory : Memory N :=
  {| m_products := Some [{[ "description" := VStr "A widget";
                            "price" := VNum 500%N ]}];
     m_faqs := None; m_policies := None; m_custom_knowledge := None;
     m_store_info := None |}.

(** A document whose only product has no price. *)
Definition priceless_memory : Memory N :=
  {| m_products := Some [{[ "name" := VStr "Widget";
                            "description" := VStr "A widget" ]}];
     m_faqs := None; m_policies := None; m_custom_knowledge := None;
     m_store_info := None |}.

(** A document whose entries have the required fields only. *)
Definition sparse_memory : Memory N :=
  {| m_products := Some [{[ "name" := VStr "Widget";
                            "description" := VStr "A widget";
                            "price" := VNum 500%N ]}];
     m_faqs := Some [{[ "question" := VStr "Do you ship widgets?";
                        "answer" := VStr "Yes" ]}];
     m_policies := Some [{[ "title" := VStr "Widget terms";
                            "content" := VStr "No refunds on widgets" ]}];
     m_custom_knowledge := Some [{[ "title" := VStr "Widget care";
                                    "content" := VStr "Keep dry" ]}];
     m_store_info := None |}.

(** [r] selects items of [l]: at increasing positions, hence among the
    items of [l], and without repetition when [l] has none. *)
Definition selection_of {A} (r l : list A) : Prop :=
  subsequence_of r l ∧ (∀ x, x ∈ r → x ∈ l) ∧ (NoDup l → NoDup r).


(** What has to hold of a request for the ids to stay unique: the id that
    the clock gives to a new entry is not yet in its category, and an
    imported document has unique ids itself. *)
Definition fresh_id {num} (now : datetime) (c : category)
    (f : option (Memory num)) : Prop :=
  VStr (generate_id now)
  ∉ present_ids (default [] (category_list c (load_memory f))).

Definition keeps_ids_unique {num} (now : datetime) (req : request num)
    (f : option (Memory num)) : Prop :=
  match req with
  | PostProduct _ => fresh_id now Products f
  | PostFaq _ => fresh_id now Faqs f
  | PostPolicy _ => fresh_id now Policies f
  | PostKnowledge _ => fresh_id now Knowledge f
  | ImportMemory data => unique_ids data
  | _ => True
  end.

(** A clock reading and two payloads for the examples. *)
Definition noon : datetime :=
  {| year := 2024; month := 3; day := 9; hour := 12; minute := 0;
     second := 0; microsecond := 0 |}.

Definition espresso : Product N :=
  {| product_id := None; product_name := "Espresso";
     product_description := "Dark roast"; product_price := 1999%N;
     product_category := Some "coffee"; product_features := Some [];
     product_in_stock := Some true |}.

Definition decaf : Product N :=
  {| product_id := Some "chosen-by-the-client"; product_name := "Decaf";
     product_description := "Mild roast"; product_price := 1799%N;
     product_category := None; product_features := None;
     product_in_stock := None |}.

(** A document that lists the same product twice. *)
Definition duplicated_memory : Memory N :=
  {| m_products := Some [sample_product "espresso" 1999;
                         sample_product "espresso" 1999];
     m_faqs := Some []; m_policies := Some []; m_custom_knowledge := Some [];
     m_store_info := None |}.

(** The heaps that a run of [search_knowledge_heap] goes through: the
    objects [h0] it started with, the lists of the results, and the empty
    defaults of [get]. *)
Definition heap_of {num} (h0 cells : heap num) (k : nat) : heap num :=
  h0 ++ cells ++ replicate k [].

(** A heap with the three lists of [sample_memory], and its references. *)
Definition sample_heap : heap N :=
  [default [] (m_products sample_memory); default [] (m_faqs sample_memory);
   default [] (m_policies sample_memory)].

Definition sample_refs : MemoryRefs N :=
  {| ref_products := Some 0; ref_faqs := Some 1; ref_policies := Some 2;
     ref_custom_knowledge := None; ref_store_info := Some acme_info |}.

(** * Properties *)

(** ** Strings and word sets *)

Example split_ex : split "  hi,  there you " = ["hi,"; "there"; "you"].
Proof. reflexivity. Qed.

Example generate_id_ex :
  generate_id {| year := 2024; month := 3; day := 9; hour := 14; minute := 5;
                 second := 7; microsecond := 1234 |}
  = "20240309140507001234".
Proof. reflexivity. Qed.

Example hundredths_ex :
  num_format_2f 1999%N = "19.99" ∧ num_str 2050%N = "20.5"
  ∧ num_format_2f 500%N = "5.00".
Proof. vm_compute. done. Qed.


Lemma append_nil s : "" +:+ s = s.
Proof. reflexivity. Qed.





Lemma any_in_true (S : wordset) f : any_in S f = true ↔ ∃ w, w ∈ S ∧ f w = true.
Proof.
  unfold any_in. rewrite existsb_exists. split; intros (w & Hw & Hf); exists w.
  - split; [| done]. by apply elem_of_elements, list_elem_of_In.
  - split; [| done]. by apply list_elem_of_In, elem_of_elements.
Qed.

Lemma any_in_empty f : any_in ∅ f = false.
Proof.
  destruct (any_in ∅ f) eqn:E; [| done].
  apply any_in_true in E as (w & Hw & _). set_solver.
Qed.





(** ** The result monad *)

Lemma bind_Ok {A B} (r : result A) (k : A → result B) b :
  r ≫= k = Ok b ↔ ∃ a, r = Ok a ∧ k a = Ok b.
Proof.
  destruct r as [a|e]; simpl; split.
  - intros H. by exists a.
  - by intros (? & [= <-] & ?).
  - done.
  - by intros (? & [=] & _).
Qed.

Lemma is_Ok_true {A} (r : result A) : is_Ok r = true ↔ ∃ a, r = Ok a.
Proof.
  destruct r; simpl; split; [eauto | done | done | by intros [? ?]].
Qed.

(** ** The scanning loop *)

Section scan.
Context {num : Type} (text_of : dict num → result string).
Context (matches : string → bool).

Lemma selects_Ok e text :
  text_of e = Ok text → selects text_of matches e = matches text.
Proof. unfold selects. by intros ->. Qed.

Lemma scan_Ok entries found r :
  scan text_of matches entries found = Ok r →
  r = found ++ filter (λ e, selects text_of matches e) entries
  ∧ Forall (λ e, is_Ok (text_of e) = true) entries.
Proof.
  revert found r. induction entries as [|e entries IH]; intros found r; simpl.
  - intros [= <-]. by rewrite app_nil_r.
  - intros (text & Htext & Hrest)%bind_Ok. apply IH in Hrest as [-> Hall].
    split; [| constructor; [by rewrite Htext | done]].
    rewrite filter_cons, (selects_Ok _ _ Htext).
    destruct (matches text); simpl; by rewrite <-?app_assoc.
Qed.

Lemma scan_total entries found :
  Forall (λ e, is_Ok (text_of e) = true) entries →
  scan text_of matches entries found
  = Ok (found ++ filter (λ e, selects text_of matches e) entries).
Proof.
  intros Hall. revert found.
  induction Hall as [|e entries He _ IH]; intros found.
  - simpl. by rewrite app_nil_r.
  - apply is_Ok_true in He as [text Htext]. simpl. rewrite Htext. simpl.
    rewrite IH, filter_cons, (selects_Ok _ _ Htext).
    destruct (matches text); simpl; by rewrite <-?app_assoc.
Qed.


End scan.

(** ** Entries that conform to the data model are read without error *)

Section texts.
Context {num : Type} `{!PyRuntime num}.
Implicit Types (d p : dict num) (k : string).

Lemma has_key_subscript d k :
  has_key d k = true → ∃ v, d !! k = Some v ∧ subscript d k = Ok v.
Proof.
  unfold has_key, subscript. intros [v Hv]%bool_decide_eq_true.
  exists v. by rewrite Hv.
Qed.

Lemma is_string_subscript d k :
  is_string d k = true → ∃ s, d !! k = Some (VStr s) ∧ subscript d k = Ok (VStr s).
Proof.
  unfold is_string, subscript.
  destruct (d !! k) as [[| | |s|]|]; try done. by exists s.
Qed.

Lemma is_number_subscript d k :
  is_number d k = true → ∃ x, d !! k = Some (VNum x) ∧ subscript d k = Ok (VNum x).
Proof.
  unfold is_number, subscript.
  destruct (d !! k) as [[| |x| |]|]; try done. by exists x.
Qed.

Lemma list_or_missing_join d k sep :
  list_or_missing d k = true →
  ∃ l, get d k (VList []) = VList l ∧ py_join sep (get d k (VList [])) = Ok (join sep l).
Proof.
  unfold list_or_missing, get.
  destruct (d !! k) as [[| | | |l]|]; try done; simpl; eauto.
Qed.

Lemma product_text_Ok p : wf_product p = true → is_Ok (product_text p) = true.
Proof.
  unfold wf_product, product_text.
  intros [[[(? & _ & ->)%has_key_subscript (? & _ & ->)%has_key_subscript]
    %andb_true_iff _]%andb_true_iff Hf]%andb_true_iff.
  destruct (list_or_missing_join _ _ " " Hf) as (l & _ & ->). done.
Qed.

Lemma faq_text_Ok p : wf_faq p = true → is_Ok (faq_text p) = true.
Proof.
  unfold wf_faq, faq_text.
  by intros [(? & _ & ->)%has_key_subscript (? & _ & ->)%has_key_subscript]
    %andb_true_iff.
Qed.

Lemma policy_text_Ok p : wf_policy p = true → is_Ok (policy_text p) = true.
Proof.
  unfold wf_policy, policy_text.
  by intros [(? & _ & ->)%has_key_subscript (? & _ & ->)%is_string_subscript]
    %andb_true_iff.
Qed.

Lemma knowledge_text_Ok p :
  wf_knowledge p = true → is_Ok (knowledge_text p) = true.
Proof.
  unfold wf_knowledge, knowledge_text.
  intros [[(? & _ & ->)%has_key_subscript (? & _ & ->)%is_string_subscript]
    %andb_true_iff Hk]%andb_true_iff.
  destruct (list_or_missing_join _ _ " " Hk) as (l & _ & ->). done.
Qed.

Lemma forallb_Forall_Ok {A} (wf : A → bool) (f : A → result string) l :
  (∀ x, wf x = true → is_Ok (f x) = true) →
  forallb wf l = true → Forall (λ x, is_Ok (f x) = true) l.
Proof.
  intros Hwf H. apply Forall_forall. intros x Hx. apply Hwf.
  rewrite forallb_forall in H. by apply H, list_elem_of_In.
Qed.

Lemma wf_memory_inv (m : Memory num) :
  wf_memory m = true →
  forallb wf_product (default [] (m_products m)) = true
  ∧ forallb wf_faq (default [] (m_faqs m)) = true
  ∧ forallb wf_policy (default [] (m_policies m)) = true
  ∧ forallb wf_knowledge (default [] (m_custom_knowledge m)) = true
  ∧ from_option wf_store_info true (m_store_info m) = true.
Proof. unfold wf_memory. rewrite !andb_true_iff. tauto. Qed.

Lemma wf_results_inv (r : Results num) :
  wf_results r = true →
  forallb wf_product (r_products r) = true
  ∧ forallb wf_faq (r_faqs r) = true
  ∧ forallb wf_policy (r_policies r) = true
  ∧ forallb wf_knowledge (r_custom_knowledge r) = true
  ∧ from_option wf_store_info true (r_store_info r) = true.
Proof. unfold wf_results. rewrite !andb_true_iff. tauto. Qed.

(** ** What search_knowledge returns *)

(** The products that a query matches in a list. *)
Lemma search_knowledge_Ok query memory r :
  search_knowledge query memory = Ok r →
  let query_words := query_words_of query in
  let meaningful_words := query_words ∖ stop_words in
  let specific_terms := meaningful_words ∖ product_query_keywords in
  r_products r =
    (if nonempty (query_words ∩ product_query_keywords) then
       if negb (nonempty specific_terms) then default [] (m_products memory)
       else filter (λ p, selects product_text (any_word_in specific_terms) p)
              (default [] (m_products memory))
     else filter
            (λ p, selects product_text
                    (product_match meaningful_words query_words) p)
            (default [] (m_products memory)))
  ∧ r_faqs r =
      filter (λ e, selects faq_text
                     (keyword_match meaningful_words query_words faq_keywords)
                     e)
        (default [] (m_faqs memory))
  ∧ r_policies r =
      filter (λ e, selects policy_text
                     (keyword_match meaningful_words query_words
                        policy_keywords) e)
        (default [] (m_policies memory))
  ∧ r_custom_knowledge r =
      filter (λ e, selects knowledge_text (meaningful_match meaningful_words) e)
        (default [] (m_custom_knowledge memory))
  ∧ r_store_info r =
      (if nonempty (query_words ∩ store_keywords)
          || nonempty (query_words ∩ greeting_words)
       then m_store_info memory else None)
  ∧ Forall (λ e, is_Ok (faq_text e) = true) (default [] (m_faqs memory)).
Proof.
  unfold search_knowledge.
  intros (ps & Hps & (fs & Hfs & (ls & Hls & (ks & Hks & [= <-])%bind_Ok)
    %bind_Ok)%bind_Ok)%bind_Ok. simpl.
  apply scan_Ok in Hfs as [-> ?], Hls as [-> _], Hks as [-> _].
  repeat split; try done.
  destruct (nonempty (_ ∩ product_query_keywords)).
  - destruct (negb _); [by injection Hps | by apply scan_Ok in Hps as [-> _]].
  - by apply scan_Ok in Hps as [-> _].
Qed.

Lemma search_knowledge_total query memory :
  wf_memory memory = true → ∃ r, search_knowledge query memory = Ok r.
Proof.
  intros (Hp & Hf & Hl & Hk & _)%wf_memory_inv. unfold search_knowledge.
  eapply forallb_Forall_Ok in Hp; [| apply product_text_Ok].
  eapply forallb_Forall_Ok in Hf; [| apply faq_text_Ok].
  eapply forallb_Forall_Ok in Hl; [| apply policy_text_Ok].
  eapply forallb_Forall_Ok in Hk; [| apply knowledge_text_Ok].
  rewrite (scan_total faq_text), (scan_total policy_text),
    (scan_total knowledge_text) by done.
  destruct (nonempty (_ ∩ product_query_keywords)).
  - destruct (negb _); [| rewrite (scan_total product_text) by done];
      simpl; eauto.
  - rewrite (scan_total product_text) by done. simpl; eauto.
Qed.

End texts.

(** ** The composer *)

Section composer.
Context {num : Type} `{!PyRuntime num}.
Implicit Types (d p : dict num) (response_parts : list (value num)).

Lemma join_parts_strings (l : list string) :
  join_parts (VStr <$> l : list (value num)) = Ok l.
Proof.
  induction l as [|s l IH]; [done |].
  rewrite fmap_cons. cbn [join_parts]. by rewrite IH.
Qed.

Lemma join_response_strings (l : list string) :
  join_response (VStr <$> l : list (value num)) = Ok (join newline l).
Proof. unfold join_response. by rewrite join_parts_strings. Qed.



End composer.

(** ** Sections of the response *)

Section sections.
Context {num : Type} `{!PyRuntime num}.
Implicit Types (render : dict num → result (list (value num))).
Implicit Types (entries : list (dict num)) (blocks : list (list (value num))).

Lemma append_each_Ok render entries response_parts r :
  append_each render entries response_parts = Ok r ↔
  ∃ blocks, Forall2 (λ e b, render e = Ok b) entries blocks
            ∧ r = response_parts ++ concat blocks.
Proof.
  revert response_parts.
  induction entries as [|e entries IH]; intros response_parts; simpl.
  - split.
    + intros [= <-]. exists []. by rewrite app_nil_r.
    + intros (blocks & ->%Forall2_nil_inv_l & ->). by rewrite app_nil_r.
  - rewrite bind_Ok. split.
    + intros (b & Hb & (blocks & Hall & ->)%IH).
      exists (b :: blocks). split; [by constructor |].
      by rewrite <-app_assoc.
    + intros (blocks & (b & blocks' & Hb & Hall & ->)%Forall2_cons_inv_l & ->).
      exists b. split; [done |]. apply IH. exists blocks'.
      split; [done |]. by rewrite <-app_assoc.
Qed.







End sections.

(** ** The composer does not fail on entries that conform to the data model *)

Section composer_total.
Context {num : Type} `{!PyRuntime num}.
Implicit Types (d p info : dict num) (lines : list string).

Lemma get_truthy_subscript d k :
  py_bool (get d k VNone) = true → ∃ v, d !! k = Some v ∧ subscript d k = Ok v.
Proof.
  unfold get, subscript. destruct (d !! k) as [v|]; [eauto | done].
Qed.

Lemma parts_snoc lines s :
  (VStr <$> lines) ++ [VStr s] = VStr <$> (lines ++ [s]) :> list (value num).
Proof. by rewrite fmap_app. Qed.

Lemma parts_app lines lines' :
  (VStr <$> lines) ++ (VStr <$> lines') = VStr <$> (lines ++ lines')
  :> list (value num).
Proof. by rewrite fmap_app. Qed.

Lemma feature_lines_strings (features : list string) :
  ∃ lines, feature_lines features = VStr <$> lines :> list (value num).
Proof.
  unfold feature_lines. induction features as [|f features [lines IH]].
  - by exists [].
  - eexists (_ :: lines). rewrite !fmap_cons. by rewrite IH.
Qed.

(** Brings the parts of a goal to the form [VStr <$> (lines ++ _)]. *)
Ltac strings :=
  cbn [mbind result_bind mret result_ret py_format_2f py_iter];
  rewrite ?parts_snoc, ?parts_app, <-?app_assoc.

Lemma product_bullet_wf p :
  wf_product p = true → ∃ line, product_bullet p = Ok [VStr line].
Proof.
  unfold wf_product, product_bullet.
  intros [[[(? & _ & ->)%has_key_subscript _]%andb_true_iff
    (? & _ & ->)%is_number_subscript]%andb_true_iff _]%andb_true_iff.
  simpl. eauto.
Qed.

Lemma product_card_wf p lines :
  wf_product p = true →
  ∃ card, product_card p (VStr <$> lines) = Ok (VStr <$> (lines ++ card))
          ∧ card ≠ [].
Proof.
  unfold wf_product, product_card.
  intros [[[(name & _ & ->)%has_key_subscript
    (description & _ & ->)%has_key_subscript]%andb_true_iff
    (price & _ & ->)%is_number_subscript]%andb_true_iff Hf]%andb_true_iff.
  strings.
  destruct (py_bool (get p "category" VNone)) eqn:Hc.
  - apply get_truthy_subscript in Hc as (c & _ & ->). strings.
    destruct (py_bool (get p "features" VNone)) eqn:Hfs.
    + apply get_truthy_subscript in Hfs as (fs & Hfs & ->).
      unfold list_or_missing in Hf. rewrite Hfs in Hf.
      destruct fs as [| | | |l]; try done. strings.
      destruct (feature_lines_strings l) as [fl ->]. strings.
      eexists. split; [reflexivity | done].
    + strings. eexists. split; [reflexivity | done].
  - strings. destruct (py_bool (get p "features" VNone)) eqn:Hfs.
    + apply get_truthy_subscript in Hfs as (fs & Hfs & ->).
      unfold list_or_missing in Hf. rewrite Hfs in Hf.
      destruct fs as [| | | |l]; try done. strings.
      destruct (feature_lines_strings l) as [fl ->]. strings.
      eexists. split; [reflexivity | done].
    + strings. eexists. split; [reflexivity | done].
Qed.

Lemma faq_lines_wf p :
  wf_faq p = true → ∃ q a, faq_lines p = Ok [VStr q; VStr a].
Proof.
  unfold wf_faq, faq_lines.
  intros [(? & _ & ->)%has_key_subscript (? & _ & ->)%has_key_subscript]
    %andb_true_iff. simpl. eauto.
Qed.

Lemma titled_lines_policy p :
  wf_policy p = true → ∃ t c, titled_lines p = Ok [VStr t; VStr c].
Proof.
  unfold wf_policy, titled_lines.
  intros [(? & _ & ->)%has_key_subscript (? & _ & ->)%is_string_subscript]
    %andb_true_iff. simpl. eauto.
Qed.

Lemma titled_lines_knowledge p :
  wf_knowledge p = true → ∃ t c, titled_lines p = Ok [VStr t; VStr c].
Proof.
  unfold wf_knowledge, titled_lines.
  intros [[(? & _ & ->)%has_key_subscript (? & _ & ->)%is_string_subscript]
    %andb_true_iff _]%andb_true_iff. simpl. eauto.
Qed.

Lemma store_info_lines_wf info :
  wf_store_info info = true →
  ∃ lines, store_info_lines info = Ok (VStr <$> lines) ∧ lines ≠ [].
Proof.
  unfold wf_store_info, string_or_missing, store_info_lines. intros Hd.
  change [VStr ?s] with (VStr <$> [s] : list (value num)).
  destruct (py_bool (get info "description" VNone)) eqn:Hdesc.
  - apply get_truthy_subscript in Hdesc as (v & Hv & ->). rewrite Hv in Hd.
    destruct v as [| | |s|]; try done. strings.
    destruct (py_bool (get info "contact_email" VNone)) eqn:He.
    + apply get_truthy_subscript in He as (e & _ & ->). strings.
      destruct (py_bool (get info "contact_phone" VNone)) eqn:Hp.
      * apply get_truthy_subscript in Hp as (ph & _ & ->). strings.
        eexists. split; [reflexivity | done].
      * eexists. split; [reflexivity | done].
    + strings. destruct (py_bool (get info "contact_phone" VNone)) eqn:Hp.
      * apply get_truthy_subscript in Hp as (ph & _ & ->). strings.
        eexists. split; [reflexivity | done].
      * eexists. split; [reflexivity | done].
  - strings. destruct (py_bool (get info "contact_email" VNone)) eqn:He.
    + apply get_truthy_subscript in He as (e & _ & ->). strings.
      destruct (py_bool (get info "contact_phone" VNone)) eqn:Hp.
      * apply get_truthy_subscript in Hp as (ph & _ & ->). strings.
        eexists. split; [reflexivity | done].
      * eexists. split; [reflexivity | done].
    + strings. destruct (py_bool (get info "contact_phone" VNone)) eqn:Hp.
      * apply get_truthy_subscript in Hp as (ph & _ & ->). strings.
        eexists. split; [reflexivity | done].
      * eexists. split; [reflexivity | done].
Qed.

End composer_total.

Section pipeline_total.
Context {num : Type} `{!PyRuntime num}.
Implicit Types (d p info : dict num) (lines : list string).

Lemma append_each_wf (wf : dict num → bool) render entries lines :
  (∀ e, wf e = true → ∃ b, render e = Ok (VStr <$> b)) →
  forallb wf entries = true →
  ∃ added, append_each render entries (VStr <$> lines)
           = Ok (VStr <$> (lines ++ added)).
Proof.
  intros Hr. revert lines.
  induction entries as [|e entries IH]; intros lines; simpl.
  - intros _. exists []. by rewrite app_nil_r.
  - intros [[b ->]%Hr Hrest]%andb_true_iff. simpl. rewrite parts_app.
    destruct (IH (lines ++ b) Hrest) as [added ->].
    exists (b ++ added). by rewrite app_assoc.
Qed.

Lemma forallb_take {A} (f : A → bool) n (l : list A) :
  forallb f l = true → forallb f (take n l) = true.
Proof.
  rewrite !forallb_forall. intros H x Hx. apply H.
  apply list_elem_of_In. apply list_elem_of_In in Hx.
  apply elem_of_take in Hx as (i & Hi & _). by eapply list_elem_of_lookup_2.
Qed.

Lemma with_separator_strings lines :
  ∃ sep, with_separator (VStr <$> lines) = VStr <$> (lines ++ sep)
         :> list (value num).
Proof.
  destruct lines as [|s lines].
  - by exists [].
  - exists [separator]. by rewrite fmap_app.
Qed.

Lemma listed_section_wf (wf : dict num → bool) render limit entries lines :
  (∀ e, wf e = true → ∃ b, render e = Ok (VStr <$> b)) →
  forallb wf entries = true →
  ∃ added, listed_section render limit entries (VStr <$> lines)
           = Ok (VStr <$> (lines ++ added)).
Proof.
  intros Hr Hwf. unfold listed_section.
  destruct entries as [|e entries]; [exists []; by rewrite app_nil_r |].
  destruct (with_separator_strings lines) as [sep ->].
  destruct (append_each_wf wf render (take limit (e :: entries))
              (lines ++ sep) Hr) as [added ->]; [by apply forallb_take |].
  exists (sep ++ added). by rewrite app_assoc.
Qed.

Lemma products_section_wf products lines :
  forallb wf_product products = true →
  ∃ added, products_section products (VStr <$> lines)
           = Ok (VStr <$> (lines ++ added)).
Proof.
  intros Hwf. destruct products as [|p1 [|p2 products]].
  - exists []. by rewrite app_nil_r.
  - simpl in Hwf. apply andb_true_iff in Hwf as [Hp _].
    destruct (product_card_wf p1 lines Hp) as (card & Hcard & _). eauto.
  - unfold products_section. rewrite parts_snoc.
    destruct (append_each_wf wf_product product_bullet
                (take 5 (p1 :: p2 :: products)) (lines ++ [products_header]))
      as [added ->].
    + intros e [line ->]%product_bullet_wf. by exists [line].
    + by apply forallb_take.
    + eexists. by rewrite <-app_assoc.
Qed.

Lemma store_info_section_wf (store_info : option (dict num)) lines :
  from_option wf_store_info true store_info = true →
  ∃ added, store_info_section store_info (VStr <$> lines)
           = Ok (VStr <$> (lines ++ added)).
Proof.
  intros Hwf. unfold store_info_section.
  destruct store_info as [info|], lines as [|s lines];
    try (exists []; by rewrite app_nil_r).
  simpl. destruct (dict_bool info); [| by exists []].
  destruct (store_info_lines_wf info Hwf) as (added & -> & _). by exists added.
Qed.

Lemma sections_wf (search_results : Results num) :
  wf_results search_results = true →
  ∃ shown rest,
    products_section (r_products search_results) [] = Ok (VStr <$> shown)
    ∧ sections search_results = Ok (VStr <$> (shown ++ rest)).
Proof.
  intros (Hp & Hf & Hl & Hk & Hs)%wf_results_inv. unfold sections.
  destruct (products_section_wf _ [] Hp) as [l1 H1].
  change (VStr <$> []) with ([] : list (value num)) in H1. rewrite H1.
  cbn [mbind result_bind].
  destruct (listed_section_wf wf_faq faq_lines 3 (r_faqs search_results)
              ([] ++ l1)) as [l2 H2]; [| done |].
  { intros e (q & a & ->)%faq_lines_wf. by exists [q; a]. }
  unfold faqs_section. rewrite H2. cbn [mbind result_bind].
  destruct (listed_section_wf wf_policy titled_lines 2
              (r_policies search_results) (([] ++ l1) ++ l2))
    as [l3 H3]; [| done |].
  { intros e (t & c & ->)%titled_lines_policy. by exists [t; c]. }
  unfold policies_section. rewrite H3. cbn [mbind result_bind].
  destruct (listed_section_wf wf_knowledge titled_lines 2
              (r_custom_knowledge search_results) ((([] ++ l1) ++ l2) ++ l3))
    as [l4 H4]; [| done |].
  { intros e (t & c & ->)%titled_lines_knowledge. by exists [t; c]. }
  unfold custom_knowledge_section. rewrite H4. cbn [mbind result_bind].
  destruct (store_info_section_wf (r_store_info search_results)
              (((([] ++ l1) ++ l2) ++ l3) ++ l4) Hs) as [l5 H5].
  rewrite H5. exists l1, (l2 ++ l3 ++ l4 ++ l5).
  split; [done |]. by rewrite !app_assoc.
Qed.

Lemma generate_response_wf query (search_results : Results num) memory :
  wf_results search_results = true →
  ∃ response, generate_response query search_results memory = Ok response.
Proof.
  intros (shown & rest & _ & Hlines)%sections_wf.
  unfold generate_response, response_parts_of.
  destruct (is_pure_greeting _).
  - eexists. exact (join_response_strings (_ :: greeting_bullets)).
  - rewrite Hlines. destruct (shown ++ rest) as [|s lines].
    + eexists. exact (join_response_strings (fallback_lines _)).
    + eexists. exact (join_response_strings (s :: lines)).
Qed.

Lemma forallb_filter {A} (f : A → bool) (P : A → Prop)
    `{!∀ x, Decision (P x)} (l : list A) :
  forallb f l = true → forallb f (filter P l) = true.
Proof.
  rewrite !forallb_forall. intros Hall x Hx. apply Hall.
  apply list_elem_of_In. apply list_elem_of_In in Hx.
  by apply list_elem_of_filter in Hx as [_ ?].
Qed.

Lemma search_knowledge_wf query memory r :
  wf_memory memory = true →
  search_knowledge query memory = Ok r → wf_results r = true.
Proof.
  intros (Hp & Hf & Hl & Hk & Hs)%wf_memory_inv
    (Hrp & Hrf & Hrl & Hrk & Hrs & _)%search_knowledge_Ok.
  unfold wf_results. rewrite Hrp, Hrf, Hrl, Hrk, Hrs, !andb_true_iff.
  repeat split; try by apply forallb_filter.
  - destruct (nonempty _); [destruct (negb _) |];
      [done | by apply forallb_filter..].
  - by destruct (_ || _).
Qed.

(** The handler answers every message on a conforming document. *)
Lemma chat_wf query memory :
  wf_memory memory = true → ∃ response, chat query memory = Ok response.
Proof.
  intros Hwf. destruct (search_knowledge_total query memory Hwf) as [r Hr].
  unfold chat. rewrite Hr. simpl.
  by eapply generate_response_wf, search_knowledge_wf.
Qed.

End pipeline_total.

(** ** Matching conditions and subsequences *)





Section subsequences.
Context {A : Type}.
Implicit Types (l r : list A).

Lemma StronglySorted_lt_S (positions : list nat) :
  StronglySorted lt positions → StronglySorted lt (0 :: (S <$> positions)).
Proof.
  intros Hs. constructor.
  - induction Hs as [|i positions _ IH Hall]; [constructor |].
    rewrite fmap_cons. constructor; [done |].
    apply Forall_fmap. eapply Forall_impl; [done |]. simpl. lia.
  - apply Forall_fmap, Forall_true. simpl. lia.
Qed.

Lemma filter_subsequence (P : A → Prop) `{!∀ x, Decision (P x)} l :
  subsequence_of (filter P l) l.
Proof.
  induction l as [|x l (positions & Hs & Hall)].
  - exists []. split; constructor.
  - apply StronglySorted_lt_S in Hs.
    assert (Forall2 (λ i y, (x :: l) !! i = Some y) (S <$> positions)
              (filter P l)) by by apply Forall2_fmap_l.
    rewrite filter_cons. destruct (decide (P x)).
    + exists (0 :: (S <$> positions)). split; [done |]. by constructor.
    + exists (S <$> positions). split; [by inversion Hs | done].
Qed.

Lemma subsequence_of_refl l : subsequence_of l l.
Proof.
  induction l as [|x l (positions & Hs & Hall)].
  - exists []. split; constructor.
  - exists (0 :: (S <$> positions)). split; [by apply StronglySorted_lt_S |].
    constructor; [done |]. by apply Forall2_fmap_l.
Qed.

Lemma subsequence_of_elem_of r l x : subsequence_of r l → x ∈ r → x ∈ l.
Proof.
  intros (positions & _ & Hall) Hx.
  apply list_elem_of_lookup_1 in Hx as [j Hj].
  destruct (Forall2_lookup_r _ _ _ _ _ Hall Hj) as (i & _ & Hi).
  by eapply list_elem_of_lookup_2.
Qed.

Lemma subsequence_of_NoDup r l : subsequence_of r l → NoDup l → NoDup r.
Proof.
  intros (positions & Hs & Hall) Hl. apply NoDup_alt. intros j1 j2 x H1 H2.
  destruct (Forall2_lookup_r _ _ _ _ _ Hall H1) as (i1 & Hp1 & Hi1).
  destruct (Forall2_lookup_r _ _ _ _ _ Hall H2) as (i2 & Hp2 & Hi2).
  assert (i1 = i2) as -> by by eapply NoDup_lookup.
  eapply NoDup_lookup; [| done..].
  clear -Hs. induction Hs as [|i positions _ IH Hlt]; constructor; [| done].
  intros Hi. rewrite Forall_forall in Hlt. apply Hlt in Hi. lia.
Qed.

End subsequences.

(** ** The claims about the matcher *)

Section matcher.
Context {num : Type} `{!PyRuntime num}.

Lemma filter_selection {A} (P : A → Prop) `{!∀ x, Decision (P x)} (l : list A) :
  selection_of (filter P l) l.
Proof.
  pose proof (filter_subsequence P l) as Hsub. split; [done |].
  split; [intros x; by apply subsequence_of_elem_of |].
  by apply subsequence_of_NoDup.
Qed.

Lemma selection_of_refl {A} (l : list A) : selection_of l l.
Proof. split; [apply subsequence_of_refl | done]. Qed.

Lemma search_knowledge_selections query (memory : Memory num) r :
  search_knowledge query memory = Ok r →
  selection_of (r_products r) (default [] (m_products memory))
  ∧ selection_of (r_faqs r) (default [] (m_faqs memory))
  ∧ selection_of (r_policies r) (default [] (m_policies memory))
  ∧ selection_of (r_custom_knowledge r)
      (default [] (m_custom_knowledge memory)).
Proof.
  intros (-> & -> & -> & -> & _)%search_knowledge_Ok.
  split; [| split; [| split]]; try apply filter_selection.
  destruct (nonempty _); [destruct (negb _) |];
    [apply selection_of_refl | apply filter_selection..].
Qed.



End matcher.

(** ** The handlers and the ids *)

Section ids.
Context {num : Type}.
Implicit Types (entries : list (dict num)) (f : option (Memory num)).
Implicit Types (memory : Memory num) (c : category).

Lemma category_list_with_list c c' entries memory :
  category_list c' (with_list c entries memory)
  = if decide (c' = c) then Some entries else category_list c' memory.
Proof. by destruct c, c'. Qed.

Lemma category_list_with_list_eq c entries memory :
  category_list c (with_list c entries memory) = Some entries.
Proof. by destruct c. Qed.

Lemma memory_subscript_Ok c memory entries :
  memory_subscript c memory = Ok entries ↔ category_list c memory = Some entries.
Proof.
  unfold memory_subscript. destruct (category_list c memory); naive_solver.
Qed.

Lemma is_id_true (v : value num) entry_id :
  is_id v entry_id = true ↔ v = VStr entry_id.
Proof.
  destruct v; simpl; try by split.
  rewrite bool_decide_eq_true. naive_solver.
Qed.

Lemma subscript_Ok (d : dict num) k v : subscript d k = Ok v ↔ d !! k = Some v.
Proof. unfold subscript. destruct (d !! k); naive_solver. Qed.

Lemma present_ids_entry_ids entries :
  present_ids entries = omap id (entry_ids entries).
Proof.
  unfold present_ids, entry_ids.
  induction entries as [|p entries IH]; [done |].
  rewrite fmap_cons. cbn [omap list_omap]. by rewrite IH.
Qed.

Lemma find_id_Some entry_id entries i0 i :
  find_id entry_id entries i0 = Ok (Some i) →
  ∃ j old, i = i0 + j ∧ entries !! j = Some old
           ∧ old !! "id" = Some (VStr entry_id).
Proof.
  revert i0. induction entries as [|p entries IH]; intros i0; simpl; [done |].
  intros (v & Hv%subscript_Ok & Hfind)%bind_Ok.
  destruct (is_id v entry_id) eqn:Hid.
  - apply is_id_true in Hid as ->. injection Hfind as <-.
    exists 0, p. split; [lia | done].
  - apply IH in Hfind as (j & old & -> & Hj & Hold).
    exists (S j), old. split; [lia | done].
Qed.

Lemma entry_ids_insert entries j (d old : dict num) :
  entries !! j = Some old → d !! "id" = old !! "id" →
  entry_ids (<[j := d]> entries) = entry_ids entries.
Proof.
  intros Hj Hid. unfold entry_ids. rewrite list_fmap_insert, Hid.
  apply list_insert_id. by rewrite list_lookup_fmap, Hj.
Qed.

Lemma update_entry_Ok c detail entry_id dump f entry_dict f' :
  update_entry c detail entry_id dump f = Ok (entry_dict, f') →
  entry_dict = <["id" := VStr entry_id]> dump
  ∧ ∃ entries i old,
      category_list c (load_memory f) = Some entries
      ∧ entries !! i = Some old
      ∧ old !! "id" = Some (VStr entry_id)
      ∧ f' = Some (with_list c (<[i := entry_dict]> entries) (load_memory f)).
Proof.
  unfold update_entry.
  intros (entries & Hentries%memory_subscript_Ok
          & (found & Hfound & Hsave)%bind_Ok)%bind_Ok.
  destruct found as [i|]; [| done]. injection Hsave as <- <-.
  split; [done |]. apply find_id_Some in Hfound as (j & old & -> & Hj & Hold).
  by exists entries, j, old.
Qed.

Lemma without_id_sublist entry_id entries kept :
  without_id entry_id entries = Ok kept → kept `sublist_of` entries.
Proof.
  revert kept. induction entries as [|p entries IH]; intros kept; simpl.
  - by intros [= <-].
  - intros (v & _ & (kept' & Hkept%IH & [= <-])%bind_Ok)%bind_Ok.
    destruct (is_id v entry_id); by constructor.
Qed.

Lemma present_ids_sublist entries kept :
  kept `sublist_of` entries → present_ids kept `sublist_of` present_ids entries.
Proof.
  unfold present_ids. induction 1 as [|p ?? _ IH|p ?? _ IH]; simpl.
  - done.
  - destruct (p !! "id"); [by constructor | done].
  - destruct (p !! "id"); [by constructor | done].
Qed.

Lemma unique_ids_with_list c entries memory :
  unique_ids memory → NoDup (present_ids entries) →
  unique_ids (with_list c entries memory).
Proof.
  intros Hu Hnew c'. rewrite category_list_with_list.
  destruct (decide (c' = c)); [done | apply Hu].
Qed.

Lemma add_entry_unique c now dump f entry_dict f' :
  add_entry c now dump f = Ok (entry_dict, f') →
  unique_ids (load_memory f) → fresh_id now c f →
  unique_ids (load_memory f').
Proof.
  unfold add_entry, fresh_id.
  intros (entries & Hentries%memory_subscript_Ok & [= <- <-])%bind_Ok Hu Hfresh.
  apply unique_ids_with_list; [done |]. specialize (Hu c).
  rewrite Hentries in Hu, Hfresh. simpl in Hu, Hfresh.
  unfold present_ids in *. rewrite omap_app. simpl.
  rewrite lookup_insert_eq. apply NoDup_app. split; [done |].
  split; [| apply NoDup_singleton].
  intros v Hv ->%list_elem_of_singleton. by apply Hfresh.
Qed.

Lemma update_entry_unique c detail entry_id dump f entry_dict f' :
  update_entry c detail entry_id dump f = Ok (entry_dict, f') →
  unique_ids (load_memory f) → unique_ids (load_memory f').
Proof.
  intros (-> & entries & i & old & Hentries & Hi & Hold & ->)%update_entry_Ok Hu.
  apply unique_ids_with_list; [done |]. specialize (Hu c).
  rewrite Hentries in Hu. simpl in Hu.
  rewrite present_ids_entry_ids, (entry_ids_insert _ _ _ old),
    <-present_ids_entry_ids; [done.. |].
  by rewrite lookup_insert_eq.
Qed.

Lemma delete_entry_unique c entry_id f f' :
  delete_entry c entry_id f = Ok f' →
  unique_ids (load_memory f) → unique_ids (load_memory f').
Proof.
  unfold delete_entry.
  intros (entries & Hentries%memory_subscript_Ok
          & (kept & Hkept%without_id_sublist & [= <-])%bind_Ok)%bind_Ok Hu.
  apply unique_ids_with_list; [done |]. specialize (Hu c).
  rewrite Hentries in Hu. simpl in Hu.
  eapply sublist_NoDup; [done |]. by apply present_ids_sublist.
Qed.

Lemma saved_Ok {A} (r : result (A * option (Memory num))) f' :
  saved r = Ok f' ↔ ∃ a, r = Ok (a, f').
Proof.
  unfold saved. rewrite bind_Ok. split.
  - intros ([a f''] & -> & [= <-]). by exists a.
  - intros [a ->]. by exists (a, f').
Qed.

End ids.

(** ** The lists on the heap *)

Section heap_facts.
Context {num : Type} `{!PyRuntime num}.
Implicit Types (h cells : heap num) (k j i : nat).
Implicit Types (field : option loc) (entries acc : list (dict num)).

Lemma heapM_bind_run {A B} (m : heapM num A) (k : A → heapM num B) h :
  (m ≫= k) h
  = match m h with
    | (Ok a, h') => k a h'
    | (Err e, h') => (Err e, h')
    end.
Proof. done. Qed.

Lemma heap_of_length (h0 : heap num) cells k :
  length (heap_of h0 cells k) = length h0 + length cells + k.
Proof. unfold heap_of. rewrite !length_app, length_replicate. lia. Qed.

Lemma take_heap_of (h0 : heap num) cells k : take (length h0) (heap_of h0 cells k) = h0.
Proof. apply take_app_length. Qed.

Lemma list_at_doc (h0 : heap num) cells k l :
  l < length h0 → list_at l (heap_of h0 cells k) = list_at l h0.
Proof. intros Hl. unfold list_at, heap_of. by rewrite lookup_app_l. Qed.

Lemma list_at_cell (h0 : heap num) cells k j :
  list_at (length h0 + j) (heap_of h0 cells k) = default [] (cells !! j).
Proof.
  unfold list_at, heap_of. rewrite lookup_app_r by lia.
  replace (length h0 + j - length h0) with j by lia.
  destruct (decide (j < length cells)) as [Hj|Hj].
  - by rewrite lookup_app_l.
  - rewrite lookup_app_r, (lookup_ge_None_2 cells) by lia.
    destruct (replicate k [] !! _) eqn:E; [| done].
    by apply lookup_replicate in E as [-> _].
Qed.

Lemma list_at_fresh (h0 : heap num) cells k l :
  length h0 + length cells ≤ l → list_at l (heap_of h0 cells k) = [].
Proof.
  intros Hl. replace l with (length h0 + (l - length h0)) by lia.
  rewrite list_at_cell. by rewrite lookup_ge_None_2 by lia.
Qed.

Lemma alloc_list_run (h0 : heap num) cells k :
  alloc_list (heap_of h0 cells k)
  = (Ok (length h0 + length cells + k), heap_of h0 cells (S k)).
Proof.
  unfold alloc_list. rewrite heap_of_length. f_equal.
  unfold heap_of. rewrite <-!app_assoc. do 2 f_equal.
  by rewrite replicate_S_end.
Qed.

Lemma list_append_run (h0 : heap num) cells k j (x : dict num) :
  j < length cells →
  list_append (length h0 + j) x (heap_of h0 cells k)
  = (Ok (), heap_of h0 (alter (λ l, l ++ [x]) j cells) k).
Proof.
  intros Hj. unfold list_append, heap_of. f_equal.
  rewrite alter_app_r. f_equal. by rewrite alter_app_l.
Qed.

(** The list that [memory.get(key, [])] gives is outside the lists of the
    results, and is the document's list, or empty. *)
Lemma get_list_run (h0 : heap num) cells k field :
  ref_in h0 field →
  ∃ src,
    get_list field (heap_of h0 cells k) = (Ok src, heap_of h0 cells (S k))
    ∧ (∀ j, src ≠ length h0 + j ∨ length cells ≤ j)
    ∧ ∀ cells' k', length cells' = length cells → k < k' →
        list_at src (heap_of h0 cells' k')
        = from_option (λ l, list_at l h0) [] field.
Proof.
  intros Hin. unfold get_list. rewrite heapM_bind_run, alloc_list_run.
  destruct field as [l|]; simpl in *.
  - exists l. split; [done |]. split; [intros j; lia |].
    intros cells' k' _ _. by apply list_at_doc.
  - eexists. split; [done |]. split; [intros j; lia |].
    intros cells' k' Hlen _. apply list_at_fresh. lia.
Qed.

End heap_facts.

Section heap_scan.
Context {num : Type} `{!PyRuntime num}.
Context (text_of : dict num → result string) (matches : string → bool).
Implicit Types (cells : heap num) (k j i : nat).
Implicit Types (entries acc : list (dict num)).

(** The loop on the heap appends to the list [found] what the loop [scan]
    appends, as long as it does not iterate over [found] itself. *)
Lemma scan_heap_run fuel (h0 : heap num) n cells k src j entries acc i :
  (∀ cells', length cells' = n →
     list_at src (heap_of h0 cells' k) = entries) →
  length cells = n →
  cells !! j = Some acc →
  i ≤ length entries < fuel + i →
  ∃ acc',
    scan_heap fuel text_of matches src i (length h0 + j) (heap_of h0 cells k)
    = (match scan text_of matches (drop i entries) acc with
       | Ok _ => Ok ()
       | Err e => Err e
       end,
       heap_of h0 (<[j := acc']> cells) k)
    ∧ (∀ r, scan text_of matches (drop i entries) acc = Ok r → acc' = r).
Proof.
  intros Hentries. revert cells acc i.
  induction fuel as [|fuel IH]; intros cells acc i Hlen Hj Hi; [lia |].
  pose proof (lookup_lt_Some _ _ _ Hj) as Hjlt.
  cbn [scan_heap]. rewrite heapM_bind_run. unfold list_item at 1.
  rewrite (Hentries cells Hlen).
  destruct (entries !! i) as [entry|] eqn:Hentry.
  - rewrite (drop_S _ _ _ Hentry). cbn [scan].
    apply lookup_lt_Some in Hentry as Hlt.
    rewrite heapM_bind_run. unfold lift at 1.
    destruct (text_of entry) as [text|e]; cbn [mbind result_bind].
    + rewrite heapM_bind_run.
      destruct (matches text).
      * rewrite list_append_run by done.
        assert (alter (λ l, l ++ [entry]) j cells
                = <[j := acc ++ [entry]]> cells) as ->.
        { apply list_eq. intros j'. rewrite list_lookup_alter.
          destruct (decide (j = j')) as [<-|].
          - rewrite list_lookup_insert_eq by done. by rewrite Hj.
          - by rewrite list_lookup_insert_ne. }
        destruct (IH (<[j := acc ++ [entry]]> cells) (acc ++ [entry]) (S i))
          as (acc' & Hrun & Hacc');
          [by rewrite length_insert | by apply list_lookup_insert_eq | lia |].
        exists acc'. by rewrite Hrun, list_insert_insert_eq.
      * cbv [mret heapM_ret].
        destruct (IH cells acc (S i)) as (acc' & Hrun & Hacc');
          [done | done | lia |].
        exists acc'. by rewrite Hrun.
    + exists acc. split; [| done]. by rewrite list_insert_id.
  - apply lookup_ge_None in Hentry.
    rewrite drop_ge by done. cbn [scan].
    exists acc. rewrite list_insert_id by done.
    split; [done | by intros r [= <-]].
Qed.

(** The same for the loop over [memory.get(key, [])]. *)
Lemma scan_list_run fuel (h0 : heap num) cells k field j acc :
  ref_in h0 field →
  cells !! j = Some acc →
  let entries := from_option (λ l, list_at l h0) [] field in
  length entries < fuel →
  ∃ acc',
    scan_list fuel text_of matches field (length h0 + j) (heap_of h0 cells k)
    = (match scan text_of matches entries acc with
       | Ok _ => Ok ()
       | Err e => Err e
       end,
       heap_of h0 (<[j := acc']> cells) (S k))
    ∧ (∀ r, scan text_of matches entries acc = Ok r → acc' = r).
Proof.
  intros Hin Hj entries Hfuel. unfold scan_list.
  destruct (get_list_run h0 cells k field Hin) as (src & Hget & _ & Hsrc).
  rewrite heapM_bind_run, Hget.
  destruct (scan_heap_run fuel h0 (length cells) cells (S k) src j entries
              acc 0) as (acc' & Hrun & Hacc'); [| done | done | lia |].
  - intros cells' Hlen. apply Hsrc; [done | lia].
  - exists acc'. by rewrite Hrun.
Qed.

End heap_scan.

Section heap_search.
Context {num : Type} `{!PyRuntime num}.
Implicit Types (cells : heap num) (memory : MemoryRefs num).

Lemma four_allocs {B} (K : loc → loc → loc → loc → heapM num B)
    (h0 : heap num) :
  (products ← alloc_list; faqs ← alloc_list; policies ← alloc_list;
   custom_knowledge ← alloc_list; K products faqs policies custom_knowledge) h0
  = K (length h0 + 0) (length h0 + 1) (length h0 + 2) (length h0 + 3)
      (heap_of h0 [[]; []; []; []] 0).
Proof.
  cbv [mbind heapM_bind alloc_list heap_of replicate].
  rewrite !length_app. simpl. rewrite <-!app_assoc. simpl.
  replace (length h0 + 1 + 1) with (length h0 + 2) by lia.
  replace (length h0 + 2 + 1) with (length h0 + 3) by lia.
  by rewrite Nat.add_0_r.
Qed.

Lemma load_refs_entries (field : option loc) (h0 : heap num) :
  default [] ((λ r, list_at r h0) <$> field)
  = from_option (λ l, list_at l h0) [] field.
Proof. by destruct field. Qed.

Lemma longest_bounds memory (h0 : heap num) fuel :
  longest memory h0 < fuel →
  length (from_option (λ l, list_at l h0) [] (ref_products memory)) < fuel
  ∧ length (from_option (λ l, list_at l h0) [] (ref_faqs memory)) < fuel
  ∧ length (from_option (λ l, list_at l h0) [] (ref_policies memory)) < fuel
  ∧ length (from_option (λ l, list_at l h0) [] (ref_custom_knowledge memory))
    < fuel.
Proof.
  unfold longest.
  destruct (ref_products memory), (ref_faqs memory), (ref_policies memory),
    (ref_custom_knowledge memory); simpl; lia.
Qed.

(** The three loops after the products, and the result. *)
Lemma search_tail_run fuel memory (h0 : heap num) c0 k products ps
    (mw qw : wordset) store_info :
  refs_in memory h0 → longest memory h0 < fuel →
  (∀ cells' k', length cells' = 4 → cells' !! 0 = Some c0 → k < k' →
     list_at products (heap_of h0 cells' k') = ps) →
  ∃ cells' k' res,
    (_ ← scan_list fuel faq_text (keyword_match mw qw faq_keywords)
           (ref_faqs memory) (length h0 + 1);
     _ ← scan_list fuel policy_text (keyword_match mw qw policy_keywords)
           (ref_policies memory) (length h0 + 2);
     _ ← scan_list fuel knowledge_text (meaningful_match mw)
           (ref_custom_knowledge memory) (length h0 + 3);
     mret {| res_products := products; res_faqs := length h0 + 1;
             res_policies := length h0 + 2;
             res_custom_knowledge := length h0 + 3;
             res_store_info := store_info |})
      (heap_of h0 [c0; []; []; []] k)
    = (res, heap_of h0 cells' k')
    ∧ match
        (faqs ← scan faq_text (keyword_match mw qw faq_keywords)
                  (default [] (m_faqs (load_refs memory h0))) [];
         policies ← scan policy_text (keyword_match mw qw policy_keywords)
                      (default [] (m_policies (load_refs memory h0))) [];
         custom_knowledge ← scan knowledge_text (meaningful_match mw)
                              (default []
                                 (m_custom_knowledge (load_refs memory h0)))
                              [];
         mret {| r_products := ps; r_faqs := faqs; r_policies := policies;
                 r_custom_knowledge := custom_knowledge;
                 r_store_info := store_info |})
      with
      | Ok r => ∃ results, res = Ok results
                           ∧ load_results results (heap_of h0 cells' k') = r
      | Err e => res = Err e
      end.
Proof.
  intros (_ & Hf & Hl & Hk) (_ & Hlf & Hll & Hlk)%longest_bounds Hproducts.
  cbn [load_refs m_faqs m_policies m_custom_knowledge].
  rewrite !load_refs_entries.
  destruct (scan_list_run faq_text (keyword_match mw qw faq_keywords) fuel h0
              [c0; []; []; []] k (ref_faqs memory) 1 [] Hf eq_refl Hlf)
    as (fs' & Hrun1 & Hfs).
  rewrite heapM_bind_run, Hrun1.
  destruct (scan faq_text _ _ _) as [fs|e]; cbn [mbind result_bind];
    [| by eexists _, _, _].
  rewrite (Hfs fs eq_refl). cbn [insert list_insert].
  destruct (scan_list_run policy_text (keyword_match mw qw policy_keywords)
              fuel h0 [c0; fs; []; []] (S k) (ref_policies memory) 2 []
              Hl eq_refl Hll) as (ls' & Hrun2 & Hls).
  rewrite heapM_bind_run, Hrun2.
  destruct (scan policy_text _ _ _) as [ls|e]; cbn [mbind result_bind];
    [| by eexists _, _, _].
  rewrite (Hls ls eq_refl). cbn [insert list_insert].
  destruct (scan_list_run knowledge_text (meaningful_match mw)
              fuel h0 [c0; fs; ls; []] (S (S k))
              (ref_custom_knowledge memory) 3 []
              Hk eq_refl Hlk) as (ks' & Hrun3 & Hks).
  rewrite heapM_bind_run, Hrun3.
  destruct (scan knowledge_text _ _ _) as [ks|e]; cbn [mbind result_bind];
    [| by eexists _, _, _].
  rewrite (Hks ks eq_refl). cbn [insert list_insert].
  eexists _, _, _. split; [reflexivity |]. eexists. split; [reflexivity |].
  unfold load_results. cbn [res_products res_faqs res_policies
    res_custom_knowledge res_store_info mret result_ret].
  rewrite !list_at_cell. rewrite Hproducts by (done || lia). done.
Qed.

End heap_search.

Section heap_pipeline.
Context {num : Type} `{!PyRuntime num}.
Implicit Types (cells : heap num) (memory : MemoryRefs num).

(** [search_knowledge_heap] computes what [search_knowledge] computes on
    the document that the references denote, and its heap is the heap it
    started with, followed by new lists. *)
Lemma search_knowledge_heap_run fuel query memory (h0 : heap num) :
  refs_in memory h0 → longest memory h0 < fuel →
  ∃ cells k res,
    search_knowledge_heap fuel query memory h0 = (res, heap_of h0 cells k)
    ∧ match search_knowledge query (load_refs memory h0) with
      | Ok r => ∃ results, res = Ok results
                           ∧ load_results results (heap_of h0 cells k) = r
      | Err e => res = Err e
      end.
Proof.
  intros Hrefs Hfuel. pose proof Hrefs as (Hp & _).
  pose proof Hfuel as (Hlp & _)%longest_bounds.
  unfold search_knowledge_heap, search_knowledge. cbv zeta.
  rewrite four_allocs, heapM_bind_run.
  cbn [load_refs m_products m_store_info]. rewrite load_refs_entries.
  set (mw := query_words_of query ∖ stop_words).
  set (qw := query_words_of query).
  set (store_info := if _ || _ then _ else _).
  assert (∀ matches,
    ∃ cells k res,
      match
        (_ ← scan_list fuel product_text matches (ref_products memory)
               (length h0 + 0);
         mret (length h0 + 0)) (heap_of h0 [[]; []; []; []] 0)
      with
      | (Ok a, h') =>
          (_ ← scan_list fuel faq_text (keyword_match mw qw faq_keywords)
                 (ref_faqs memory) (length h0 + 1);
           _ ← scan_list fuel policy_text
                 (keyword_match mw qw policy_keywords)
                 (ref_policies memory) (length h0 + 2);
           _ ← scan_list fuel knowledge_text (meaningful_match mw)
                 (ref_custom_knowledge memory) (length h0 + 3);
           mret {| res_products := a; res_faqs := length h0 + 1;
                   res_policies := length h0 + 2;
                   res_custom_knowledge := length h0 + 3;
                   res_store_info := store_info |}) h'
      | (Err e, h') => (Err e, h')
      end = (res, heap_of h0 cells k)
      ∧ match
          scan product_text matches
            (from_option (λ l, list_at l h0) [] (ref_products memory)) []
          ≫= λ products,
               faqs ← scan faq_text (keyword_match mw qw faq_keywords)
                        (default [] (m_faqs (load_refs memory h0))) [];
               policies ← scan policy_text
                            (keyword_match mw qw policy_keywords)
                            (default [] (m_policies (load_refs memory h0)))
                            [];
               custom_knowledge ← scan knowledge_text (meaningful_match mw)
                                    (default []
                                       (m_custom_knowledge
                                          (load_refs memory h0))) [];
               mret {| r_products := products; r_faqs := faqs;
                       r_policies := policies;
                       r_custom_knowledge := custom_knowledge;
                       r_store_info := store_info |}
        with
        | Ok r => ∃ results, res = Ok results
                             ∧ load_results results (heap_of h0 cells k) = r
        | Err e => res = Err e
        end) as Hscan.
  { intros matches.
    destruct (scan_list_run product_text matches fuel h0 [[]; []; []; []] 0
                (ref_products memory) 0 [] Hp eq_refl Hlp)
      as (ps' & Hrun & Hps).
    rewrite heapM_bind_run, Hrun.
    destruct (scan product_text _ _ _) as [ps|e]; cbn [mbind result_bind];
      [| by eexists _, _, _].
    rewrite (Hps ps eq_refl). cbn [insert list_insert mret heapM_ret].
    apply (search_tail_run fuel memory h0 ps 1 (length h0 + 0) ps);
      [done.. |].
    intros cells' k' _ Hcell _. by rewrite list_at_cell, Hcell. }
  destruct (nonempty (qw ∩ product_query_keywords)); [| apply Hscan].
  destruct (negb _); [| apply Hscan].
  destruct (get_list_run h0 [[]; []; []; []] 0 (ref_products memory) Hp)
    as (src & -> & _ & Hsrc).
  cbn [mbind result_bind].
  apply (search_tail_run fuel memory h0 [] 1 src); [done.. |].
  intros cells' k' Hlen _ Hk. apply Hsrc; [done | lia].
Qed.

Lemma load_refs_heap_of memory (h0 cells : heap num) k :
  refs_in memory h0 → load_refs memory (heap_of h0 cells k) = load_refs memory h0.
Proof.
  intros (Hp & Hf & Hl & Hk). unfold load_refs.
  destruct memory as [[p|] [f|] [l|] [c|] s]; simpl in *;
    by rewrite ?list_at_doc.
Qed.

Lemma refs_in_heap_of memory (h0 cells : heap num) k :
  refs_in memory h0 → refs_in memory (heap_of h0 cells k).
Proof.
  unfold refs_in, ref_in. rewrite heap_of_length.
  destruct memory as [[p|] [f|] [l|] [c|] s]; simpl; intuition lia.
Qed.

Lemma longest_heap_of memory (h0 cells : heap num) k :
  refs_in memory h0 → longest memory (heap_of h0 cells k) = longest memory h0.
Proof.
  intros (Hp & Hf & Hl & Hk). unfold longest.
  destruct memory as [[p|] [f|] [l|] [c|] s]; simpl in *;
    by rewrite ?list_at_doc.
Qed.

Lemma chat_heap_run fuel message memory (h0 : heap num) :
  refs_in memory h0 → longest memory h0 < fuel →
  ∃ cells k,
    chat_heap fuel message memory h0
    = (chat message (load_refs memory h0), heap_of h0 cells k).
Proof.
  intros Hrefs Hfuel. unfold chat_heap, chat.
  destruct (search_knowledge_heap_run fuel message memory h0 Hrefs Hfuel)
    as (cells & k & res & Hrun & Hres).
  exists cells, k. rewrite heapM_bind_run, Hrun.
  destruct (search_knowledge message (load_refs memory h0)) as [r|e].
  - destruct Hres as (results & -> & <-). unfold generate_response_heap.
    by rewrite load_refs_heap_of.
  - by rewrite Hres.
Qed.

End heap_pipeline.

(** ** When the sections append nothing *)

Section nothing_rendered.
Context {num : Type} `{!PyRuntime num}.
Implicit Types (p info : dict num) (response_parts r : list (value num)).

Lemma product_card_grows p response_parts r :
  product_card p response_parts = Ok r →
  ∃ added, r = response_parts ++ added ∧ added ≠ [].
Proof.
  unfold product_card.
  intros (name & _ & (description & _ & (price & _ & (price_2f & _
    & (parts1 & H1 & (parts2 & H2 & [= <-])%bind_Ok)%bind_Ok)%bind_Ok)
    %bind_Ok)%bind_Ok)%bind_Ok.
  assert (∃ t1, parts1 = response_parts ++ VStr ("**" +:+ py_str name +:+ "**")
                         :: t1) as [t1 ->].
  { destruct (py_bool (get p "category" VNone)).
    - apply bind_Ok in H1 as (category & _ & [= <-]).
      eexists. by rewrite <-!app_assoc.
    - injection H1 as <-. eexists. by rewrite <-!app_assoc. }
  assert (∃ t2, parts2 = response_parts ++ VStr ("**" +:+ py_str name +:+ "**")
                         :: t2) as [t2 ->].
  { destruct (py_bool (get p "features" VNone)).
    - apply bind_Ok in H2 as (fs & _ & (l & _ & [= <-])%bind_Ok).
      eexists. by rewrite <-!app_assoc.
    - injection H2 as <-. eauto. }
  eexists. split; [by rewrite <-app_assoc |]. done.
Qed.

Lemma append_each_grows render entries response_parts r :
  append_each render entries response_parts = Ok r →
  ∃ added, r = response_parts ++ added.
Proof. intros (blocks & _ & ->)%append_each_Ok. eauto. Qed.

Lemma products_section_grows products response_parts r :
  products_section products response_parts = Ok r →
  ∃ added, r = response_parts ++ added ∧ (products ≠ [] → added ≠ []).
Proof.
  destruct products as [|p1 [|p2 products]]; unfold products_section.
  - intros [= <-]. exists []. by rewrite app_nil_r.
  - intros (added & -> & Hne)%product_card_grows. eauto.
  - intros (added & ->)%append_each_grows.
    eexists. split; [by rewrite <-app_assoc |]. done.
Qed.

Lemma with_separator_grows response_parts :
  ∃ sep, with_separator response_parts = response_parts ++ sep.
Proof.
  destruct response_parts as [|v l]; [by exists [] |].
  by exists [VStr separator].
Qed.

Lemma listed_section_grows render limit entries response_parts r :
  (∀ e b, render e = Ok b → b ≠ []) →
  listed_section render (S limit) entries response_parts = Ok r →
  ∃ added, r = response_parts ++ added ∧ (entries ≠ [] → added ≠ []).
Proof.
  intros Hrender. unfold listed_section.
  destruct entries as [|e entries].
  - intros [= <-]. exists []. by rewrite app_nil_r.
  - intros (blocks & Hall & ->)%append_each_Ok.
    destruct (with_separator_grows response_parts) as [sep ->].
    eexists. split; [by rewrite <-app_assoc |]. intros _.
    apply Forall2_cons_inv_l in Hall as (b & blocks' & Hb%Hrender & _ & ->).
    destruct sep, b; done.
Qed.

Lemma faq_lines_nonempty (e : dict num) b : faq_lines e = Ok b → b ≠ [].
Proof.
  unfold faq_lines. by intros (? & _ & (? & _ & [= <-])%bind_Ok)%bind_Ok.
Qed.

Lemma titled_lines_nonempty (e : dict num) b : titled_lines e = Ok b → b ≠ [].
Proof.
  unfold titled_lines. by intros (? & _ & (? & _ & [= <-])%bind_Ok)%bind_Ok.
Qed.

Lemma store_info_lines_nonempty info r : store_info_lines info = Ok r → r ≠ [].
Proof.
  unfold store_info_lines.
  intros (parts1 & H1 & (parts2 & H2 & H3)%bind_Ok)%bind_Ok.
  assert (∃ v t, parts1 = v :: t) as (v1 & t1 & ->).
  { destruct (py_bool (get info "description" VNone));
      [| injection H1 as <-; eauto].
    apply bind_Ok in H1 as (? & _ & [= <-]). eauto. }
  assert (∃ v t, parts2 = v :: t) as (v2 & t2 & ->).
  { destruct (py_bool (get info "contact_email" VNone));
      [| injection H2 as <-; eauto].
    apply bind_Ok in H2 as (? & _ & [= <-]). eauto. }
  destruct (py_bool (get info "contact_phone" VNone));
    [| by injection H3 as <-].
  by apply bind_Ok in H3 as (? & _ & [= <-]).
Qed.

(** The sections append nothing exactly when no entry was matched and no
    store info is to be shown. *)
Lemma sections_nil (search_results : Results num) :
  sections search_results = Ok [] ↔
  r_products search_results = [] ∧ r_faqs search_results = []
  ∧ r_policies search_results = [] ∧ r_custom_knowledge search_results = []
  ∧ from_option (λ info, dict_bool info = false) True
      (r_store_info search_results).
Proof.
  unfold sections, faqs_section, policies_section, custom_knowledge_section.
  split.
  - intros (parts1 & H1 & (parts2 & H2 & (parts3 & H3 & (parts4 & H4 & H5)
      %bind_Ok)%bind_Ok)%bind_Ok)%bind_Ok.
    apply products_section_grows in H1 as (a1 & -> & Hp).
    apply listed_section_grows in H2 as (a2 & -> & Hf);
      [| apply faq_lines_nonempty].
    apply listed_section_grows in H3 as (a3 & -> & Hl);
      [| apply titled_lines_nonempty].
    apply listed_section_grows in H4 as (a4 & -> & Hk);
      [| apply titled_lines_nonempty].
    unfold store_info_section in H5. simpl in H5.
    destruct (r_store_info search_results) as [info|] eqn:Hinfo.
    + destruct ((((a1 ++ a2) ++ a3) ++ a4)) as [|v t] eqn:Hparts.
      * apply app_eq_nil in Hparts as [[[-> ->]%app_eq_nil ->]%app_eq_nil ->].
        destruct (dict_bool info) eqn:Hshown.
        { by apply store_info_lines_nonempty in H5. }
        repeat split; try done.
        -- destruct (r_products search_results); [done | by destruct Hp].
        -- destruct (r_faqs search_results); [done | by destruct Hf].
        -- destruct (r_policies search_results); [done | by destruct Hl].
        -- destruct (r_custom_knowledge search_results);
             [done | by destruct Hk].
      * done.
    + assert (((a1 ++ a2) ++ a3) ++ a4 = []) as Hparts.
      { destruct (((a1 ++ a2) ++ a3) ++ a4); [done | by destruct v]. }
      apply app_eq_nil in Hparts as [[[-> ->]%app_eq_nil ->]%app_eq_nil ->].
      repeat split; try done.
      * destruct (r_products search_results); [done | by destruct Hp].
      * destruct (r_faqs search_results); [done | by destruct Hf].
      * destruct (r_policies search_results); [done | by destruct Hl].
      * destruct (r_custom_knowledge search_results); [done | by destruct Hk].
  - intros (-> & -> & -> & -> & Hinfo). simpl.
    destruct (r_store_info search_results) as [info|]; [| done].
    simpl in *. by rewrite Hinfo.
Qed.

End nothing_rendered.


(** * The claims *)




(** C2, as the code has it: on a document whose entries carry the keys that
    the code subscripts (name, description and a numeric price of a product;
    question and answer of an FAQ; title and a string content of a policy
    or a custom entry), [search_knowledge] and [generate_response] return:
    a missing list, store info or optional field (category, features,
    in_stock, type, keywords, the fields of the store info) is replaced by
    its default where it is read. *)
Theorem conforming_documents_never_fail {num} `{!PyRuntime num}
    (query : string) (memory : Memory num) :
  wf_memory memory = true →
  (∃ search_results response,
     search_knowledge query memory = Ok search_results
     ∧ generate_response query search_results memory = Ok response)
  ∧ (∀ search_results,
       wf_results search_results = true →
       ∃ response, generate_response query search_results memory = Ok response).
Proof.
  intros Hwf. split; [| intros sr; apply generate_response_wf].
  destruct (search_knowledge_total query memory Hwf) as [r Hr].
  destruct (generate_response_wf query r memory) as [response Hresponse];
    [exact (search_knowledge_wf query memory r Hwf Hr) |].
  by exists r, response.
Qed.

Lemma conforming_documents_never_fail_witness :
  ∃ search_results response,
    search_knowledge "widget terms" sparse_memory = Ok search_results
    ∧ generate_response "widget terms" search_results sparse_memory
      = Ok response.
Proof.
  apply (conforming_documents_never_fail "widget terms" sparse_memory).
  reflexivity.
Defined.

(** C2, as stated, fails: a product without ["name"] makes
    [search_knowledge] raise [KeyError], and a matched product without
    ["price"] makes [generate_response] raise it. *)
Lemma missing_field_counterexample :
  search_knowledge "widget" nameless_memory = Err (KeyError "name")
  ∧ ∃ search_results,
      search_knowledge "widget" priceless_memory = Ok search_results
      ∧ generate_response "widget" search_results priceless_memory
        = Err (KeyError "price").
Proof.
  split; [by vm_compute |]. eexists. split; by vm_compute.
Qed.









(** C7: one run of the pipeline on the heap leaves every list object that
    existed before as it was, so the document that the references denote is
    the same after the run as before; its outcome is that of the functions
    [search_knowledge] and [generate_response] on that document, and a
    second run, on the heap that the first one left, has the same
    outcome. The store info and the entries are dicts to which the two
    functions never assign. *)
Theorem pipeline_leaves_document {num} `{!PyRuntime num} (fuel : nat)
    (message : string) (memory : MemoryRefs num) (h : heap num) :
  refs_in memory h → longest memory h < fuel →
  let run := chat_heap fuel message memory h in
  take (length h) run.2 = h
  ∧ load_refs memory run.2 = load_refs memory h
  ∧ run.1 = chat message (load_refs memory h)
  ∧ (chat_heap fuel message memory run.2).1 = run.1.
Proof.
  intros Hrefs Hfuel run.
  destruct (chat_heap_run fuel message memory h Hrefs Hfuel)
    as (cells & k & Hrun).
  subst run. rewrite Hrun. cbn [fst snd].
  split; [apply take_heap_of |].
  split; [by apply load_refs_heap_of |]. split; [done |].
  destruct (chat_heap_run fuel message memory (heap_of h cells k))
    as (cells' & k' & ->).
  - by apply refs_in_heap_of.
  - by rewrite longest_heap_of.
  - cbn [fst]. by rewrite load_refs_heap_of.
Qed.

Lemma pipeline_leaves_document_witness :
  let run := chat_heap 11 "products" sample_refs sample_heap in
  take (length sample_heap) run.2 = sample_heap
  ∧ load_refs sample_refs run.2 = load_refs sample_refs sample_heap
  ∧ run.1 = chat "products" (load_refs sample_refs sample_heap)
  ∧ (chat_heap 11 "products" sample_refs run.2).1 = run.1.
Proof.
  apply (pipeline_leaves_document 11 "products" sample_refs sample_heap).
  - unfold refs_in, ref_in. simpl. lia.
  - unfold longest. simpl. lia.
Defined.

(** For the query "products" the products of the results are the list
    object of the document itself (reference 0), not a copy. *)
Example products_alias_ex :
  (search_knowledge_heap 11 "products" sample_refs sample_heap).1
  = Ok {| res_products := 0; res_faqs := 4; res_policies := 5;
          res_custom_knowledge := 6; res_store_info := None |}.
Proof. by vm_compute. Qed.

(** A null list of features, which the payload model admits, is not
    iterable. *)
Example null_features_ex :
  product_text (<["features" := VNone]> (sample_product "espresso" 1999))
  = Err TypeError.
Proof. by vm_compute. Qed.

(** C8, as the code has it: an update never changes an id. The updated
    entry is the first one whose id is the id of the request path; the entry
    stored in its place carries that id, whatever id the payload has, and
    the ids of the category are the same before and after. The ids of a
    category stay unique under every request, provided that the id which
    the clock gives to a new entry is not in its category yet and that an
    imported document has unique ids: the code checks neither. *)
Theorem ids_under_requests {num} :
  (∀ c detail entry_id (dump : dict num) f entry_dict f',
     update_entry c detail entry_id dump f = Ok (entry_dict, f') →
     entry_dict !! "id" = Some (VStr entry_id)
     ∧ ∃ entries i old,
         category_list c (load_memory f) = Some entries
         ∧ entries !! i = Some old
         ∧ old !! "id" = Some (VStr entry_id)
         ∧ category_list c (load_memory f')
           = Some (<[i := entry_dict]> entries)
         ∧ entry_ids (<[i := entry_dict]> entries) = entry_ids entries)
  ∧ (∀ now (req : request num) f f',
       handle now req f = Ok f' →
       unique_ids (load_memory f) → keeps_ids_unique now req f →
       unique_ids (load_memory f')).
Proof.
  split.
  - intros c detail entry_id dump f entry_dict f'
      (-> & entries & i & old & Hentries & Hi & Hold & ->)%update_entry_Ok.
    split; [by rewrite lookup_insert_eq |].
    exists entries, i, old. repeat split; try done.
    + simpl. by rewrite category_list_with_list_eq.
    + apply (entry_ids_insert _ _ _ old); [done |].
      by rewrite lookup_insert_eq.
  - intros now req f f' Hreq Hu Hfresh. destruct req; simpl in Hreq, Hfresh;
      try (apply saved_Ok in Hreq as [d Hreq]);
      try (by eapply add_entry_unique);
      try (by eapply update_entry_unique);
      try (by eapply delete_entry_unique).
    + injection Hreq as <-. intros c.
      destruct c; [apply (Hu Products) | apply (Hu Faqs)
                  | apply (Hu Policies) | apply (Hu Knowledge)].
    + by injection Hreq as <-.
Qed.

Lemma ids_under_requests_witness :
  ∃ entry_dict f',
    update_product "id-filter" decaf (Some sample_memory) = Ok (entry_dict, f')
    ∧ product_id decaf = Some "chosen-by-the-client"
    ∧ entry_dict !! "id" = Some (VStr "id-filter").
Proof.
  eexists _, _. split; [by vm_compute |]. split; [done |].
  refine (proj1 (proj1 ids_under_requests Products "Product not found"
                   "id-filter" (product_model_dump decaf)
                   (Some sample_memory) _ _ _)).
  by vm_compute.
Defined.

(** C8, as stated, fails: the ids of a category need not be unique. Two
    products created at the same reading of the clock get the same id, and
    an imported document is saved as it is. *)
Lemma duplicate_ids_counterexample :
  (∃ f1 f2 : option (Memory N),
     handle noon (PostProduct espresso) None = Ok f1
     ∧ handle noon (PostProduct decaf) f1 = Ok f2
     ∧ reachable f2 ∧ ¬ unique_ids (load_memory f2))
  ∧ (∃ f : option (Memory N),
       handle noon (ImportMemory duplicated_memory) None = Ok f
       ∧ reachable f ∧ ¬ unique_ids (load_memory f)).
Proof.
  split.
  - eexists _, _. split; [by vm_compute |]. split; [by vm_compute |].
    split.
    + eapply (reachable_step noon (PostProduct decaf));
        [eapply (reachable_step noon (PostProduct espresso) None);
           [constructor | by vm_compute] | by vm_compute].
    + intros H. specialize (H Products). vm_compute in H.
      apply NoDup_cons in H as [H _]. apply H. constructor.
  - eexists. split; [by vm_compute |]. split.
    + eapply (reachable_step noon (ImportMemory duplicated_memory) None);
        [constructor | by vm_compute].
    + intros H. specialize (H Products). vm_compute in H.
      apply NoDup_cons in H as [H _]. apply H. constructor.
Qed.

(** C9: on a document that conforms to the data model, each matched list
    is made of entries of the document's list taken at increasing
    positions: every matched entry occurs in the document's list, no
    position is taken twice (so nothing is repeated unless the document
    repeats it), and the document's order is kept. *)
Theorem matched_lists_are_selections {num} `{!PyRuntime num} (query : string)
    (memory : Memory num) :
  wf_memory memory = true →
  ∃ r, search_knowledge query memory = Ok r
    ∧ selection_of (r_products r) (default [] (m_products memory))
    ∧ selection_of (r_faqs r) (default [] (m_faqs memory))
    ∧ selection_of (r_policies r) (default [] (m_policies memory))
    ∧ selection_of (r_custom_knowledge r)
        (default [] (m_custom_knowledge memory)).
Proof.
  intros Hwf. destruct (search_knowledge_total query memory Hwf) as [r Hr].
  exists r. split; [done |]. by apply (search_knowledge_selections query).
Qed.

Lemma matched_lists_are_selections_witness :
  ∃ r, search_knowledge "espresso or grinder shipping?" sample_memory = Ok r
    ∧ selection_of (r_products r) (default [] (m_products sample_memory))
    ∧ selection_of (r_faqs r) (default [] (m_faqs sample_memory))
    ∧ selection_of (r_policies r) (default [] (m_policies sample_memory))
    ∧ selection_of (r_custom_knowledge r)
        (default [] (m_custom_knowledge sample_memory)).
Proof.
  apply (matched_lists_are_selections "espresso or grinder shipping?"
           sample_memory).
  reflexivity.
Defined.


